(** * Mock advertisement service: validator, store and router

    A shallow embedding of [mock_service.py].  The handler class is modelled
    method by method, with the names of the source.

    - A Python [str] is a [string]: a sequence of characters, [len] counting
      characters.  A [bytes] object is a [list Byte.byte].
    - A value produced by [json.loads] is a [json]; Python's [None] is
      [JNull], a [dict] is an association list in insertion order.
    - An exception is a [Raise] result.  Handlers run in a state monad over
      [Storage] whose state survives a raised exception, as attributes of a
      Python object do.
    - Functions of the Python standard library that parse text
      ([json.loads], [urlparse], [parse_qs], [int] on a [str]) are the fields
      of the class [PyLib]; the clock reading of [datetime.now] comes with
      the request.
    - Requests are handled one at a time: interleavings of handler threads
      are outside this model. *)

From Stdlib Require Import ZArith Ascii String DecimalString DecimalZ Lia.
From Stdlib Require Import Sorting.Sorted.
From Stdlib Require Floats.SpecFloat.
From stdpp Require Import gmap strings list.

Local Open Scope Z_scope.

(** ** Exceptions and fallible results *)

Inductive exn :=
| JSONDecodeError
| UnicodeDecodeError
| RecursionError
| TypeError
| AttributeError
| KeyError
| AssertionError.

Inductive result (A : Type) :=
| Ok (a : A)
| Raise (e : exn).
Arguments Ok {A} a.
Arguments Raise {A} e.

#[global] Instance result_ret : MRet result := @Ok.
#[global] Instance result_bind : MBind result := fun A B f m =>
  match m with
  | Ok a => f a
  | Raise e => Raise e
  end.

(** ** Strings *)

Module Str.

(** [s.startswith(p)] *)
Definition startswith (s p : string) : bool := String.prefix p s.

(** [s.rstrip(c)] for a one-character set [c]. *)
Fixpoint rstrip (c : ascii) (s : string) : string :=
  match s with
  | EmptyString => EmptyString
  | String a s' =>
      match rstrip c s' with
      | EmptyString => if Ascii.eqb a c then EmptyString else String a EmptyString
      | r => String a r
      end
  end.

(** [s.split(c)] for a one-character separator [c]; the result is never
    empty. *)
Fixpoint split (c : ascii) (s : string) : list string :=
  match s with
  | EmptyString => [EmptyString]
  | String a s' =>
      if Ascii.eqb a c then EmptyString :: split c s'
      else match split c s' with
           | h :: t => String a h :: t
           | [] => [String a EmptyString]
           end
  end.

(** [l[-1]] on the list returned by [split]. *)
Definition last_segment (l : list string) : string := List.last l EmptyString.

(** [k in s] for two strings: substring test. *)
Definition contains (s k : string) : bool :=
  match String.index 0 k s with
  | Some _ => true
  | None => false
  end.

(** [c * n] *)
Fixpoint replicate (n : nat) (c : ascii) : string :=
  match n with
  | O => EmptyString
  | S n' => String c (replicate n' c)
  end.

(** [str(n)] for an [int]. *)
Definition of_int (n : Z) : string := NilZero.string_of_int (Z.to_int n).

(** The integer written by a decimal numeral, the inverse of [of_int]. *)
Definition to_int (s : string) : option Z :=
  Z.of_int <$> NilZero.int_of_string s.

(** [c not in s] *)
Fixpoint lacks (c : ascii) (s : string) : bool :=
  match s with
  | EmptyString => true
  | String a s' => negb (Ascii.eqb a c) && lacks c s'
  end.

End Str.

(** ** JSON values *)

#[warnings="-register-all"]
Inductive json :=
| JNull
| JBool (b : bool)
| JInt (n : Z)
| JFloat (f : SpecFloat.spec_float)
| JStr (s : string)
| JArr (l : list json)
| JObj (d : list (string * json)).

(** ** Dictionaries in insertion order *)

Section Dict.
Context {V : Type}.

(** [d.get(k)] *)
Fixpoint dict_get (k : string) (d : list (string * V)) : option V :=
  match d with
  | [] => None
  | (k', v) :: d' => if String.eqb k k' then Some v else dict_get k d'
  end.

(** [d[k] = v]: an existing key keeps its position, a new key goes last. *)
Fixpoint dict_set (k : string) (v : V) (d : list (string * V)) : list (string * V) :=
  match d with
  | [] => [(k, v)]
  | (k', v') :: d' =>
      if String.eqb k k' then (k, v) :: d' else (k', v') :: dict_set k v d'
  end.

(** [d.values()] *)
Definition dict_values (d : list (string * V)) : list V := map snd d.

(** [k in d] *)
Definition dict_mem (k : string) (d : list (string * V)) : bool :=
  match dict_get k d with
  | Some _ => true
  | None => false
  end.
End Dict.

(** ** Python operations on JSON values *)

(** [k in payload] *)
Definition py_in (k : string) (payload : json) : result bool :=
  match payload with
  | JObj d => Ok (dict_mem k d)
  | JArr l => Ok (existsb (fun x => match x with JStr s => String.eqb s k | _ => false end) l)
  | JStr s => Ok (Str.contains s k)
  | JNull | JBool _ | JInt _ | JFloat _ => Raise TypeError
  end.

(** [payload.get(k, default)] *)
Definition py_get (payload : json) (k : string) (default : json) : result json :=
  match payload with
  | JObj d => Ok (match dict_get k d with Some v => v | None => default end)
  | _ => Raise AttributeError
  end.

(** [payload[k]] for a string key [k]. *)
Definition py_getitem (payload : json) (k : string) : result json :=
  match payload with
  | JObj d => match dict_get k d with Some v => Ok v | None => Raise KeyError end
  | _ => Raise TypeError
  end.

(** [isinstance(v, str)] *)
Definition isinstance_str (v : json) : bool :=
  match v with JStr _ => true | _ => false end.

(** [isinstance(v, int)]; [bool] is a subclass of [int]. *)
Definition isinstance_int (v : json) : bool :=
  match v with JInt _ | JBool _ => true | _ => false end.

(** The value of an [int] instance, [True] being 1 and [False] 0. *)
Definition int_value (v : json) : Z :=
  match v with
  | JInt n => n
  | JBool b => Z.b2z b
  | _ => 0
  end.

(** [not v] for a [str]. *)
Definition str_is_empty (v : json) : bool :=
  match v with JStr EmptyString => true | _ => false end.

(** [len(v)] for a [str]. *)
Definition str_len (v : json) : Z :=
  match v with JStr s => Z.of_nat (String.length s) | _ => 0 end.

(** The float [f] compared with the integer [n], exactly as Python does. *)
Definition float_eq_int (f : SpecFloat.spec_float) (n : Z) : bool :=
  match f with
  | SpecFloat.S754_zero _ => n =? 0
  | SpecFloat.S754_finite s m e =>
      let v := if s then Z.neg m else Z.pos m in
      if 0 <=? e then v * 2 ^ e =? n else v =? n * 2 ^ (- e)
  | _ => false
  end.

(** [v == n] for an [int] [n]. *)
Definition py_eq_int (v : json) (n : Z) : bool :=
  match v with
  | JInt m => m =? n
  | JBool b => Z.b2z b =? n
  | JFloat f => float_eq_int f n
  | _ => false
  end.

(** ** Validator *)

Definition required_fields : list string :=
  ["title"; "description"; "price"; "sellerId"].

Definition append_if (c : bool) (errors : list string) (msg : string) : list string :=
  if c then errors ++ [msg] else errors.

(** The loop over the required field names. *)
Fixpoint check_missing (payload : json) (names : list string) (errors : list string)
  : result (list string) :=
  match names with
  | [] => Ok errors
  | field_name :: rest =>
      present ← py_in field_name payload;
      check_missing payload rest
        (append_if (negb present) errors ("missing field: " +:+ field_name))
  end.

Definition _validate_item (payload : json) : result (list string) :=
  match payload with
  | JNull => Ok ["body must be JSON"]
  | _ =>
      errors ← check_missing payload required_fields [];
      title ← py_get payload "title" (JStr "");
      let errors := append_if (negb (isinstance_str title) || str_is_empty title)
                      errors "title must be non-empty string" in
      let errors := append_if (isinstance_str title && (255 <? str_len title))
                      errors "title too long" in
      description ← py_get payload "description" (JStr "");
      let errors := append_if (negb (isinstance_str description) || str_is_empty description)
                      errors "description must be non-empty string" in
      let errors := append_if (isinstance_str description && (2000 <? str_len description))
                      errors "description too long" in
      price ← py_get payload "price" JNull;
      let errors := append_if (negb (isinstance_int price) || (int_value price <=? 0))
                      errors "price must be positive integer" in
      seller_id ← py_get payload "sellerId" JNull;
      let errors := append_if (negb (isinstance_int seller_id)
                               || negb ((111111 <=? int_value seller_id)
                                        && (int_value seller_id <=? 999999)))
                      errors "sellerId must be int in range 111111-999999" in
      Ok errors
  end.


(** ** Stable sort

    [list.sort(key=...)] is a stable sort that compares keys with [<] only.
    The result of a stable sort is determined by its input, so insertion
    from the right stands for it. *)

Section Sort.
Context {A : Type} (key : A -> string).

Fixpoint sort_insert (x : A) (l : list A) : list A :=
  match l with
  | [] => [x]
  | y :: l' =>
      if String.ltb (key y) (key x) then y :: sort_insert x l' else x :: y :: l'
  end.

Fixpoint sort_by (l : list A) : list A :=
  match l with
  | [] => []
  | x :: l' => sort_insert x (sort_by l')
  end.
End Sort.

(** ** Data model *)

Record Item := {
  id : string;
  title : json;
  description : json;
  price : json;
  sellerId : json;
  createdAt : string
}.

Record Stats := {
  itemId : string;
  views : Z;
  contacts : Z;
  favorites : Z
}.

(** [Stats(itemId=item_id)], the counters taking their defaults. *)
Definition new_Stats (item_id : string) : Stats :=
  {| itemId := item_id; views := 0; contacts := 0; favorites := 0 |}.

Record Storage := {
  items : list (string * Item);
  stats : gmap string Stats;
  counter : Z
}.

(** [Storage()] *)
Definition empty_Storage : Storage :=
  {| items := []; stats := ∅; counter := 0 |}.

(** [asdict(item)] *)
Definition asdict_Item (item : Item) : json :=
  JObj [("id", JStr (id item)); ("title", title item);
        ("description", description item); ("price", price item);
        ("sellerId", sellerId item); ("createdAt", JStr (createdAt item))].

(** [asdict(stats)] *)
Definition asdict_Stats (s : Stats) : json :=
  JObj [("itemId", JStr (itemId s)); ("views", JInt (views s));
        ("contacts", JInt (contacts s)); ("favorites", JInt (favorites s))].

(** ** Requests and responses *)

Inductive Request :=
| POST (path : string) (raw : list Byte.byte) (now : string)
| GET (path : string).

Inductive Response :=
| JsonResponse (status : Z) (payload : json)
| ErrorResponse (code : Z) (message : string).

Definition status_of (r : Response) : Z :=
  match r with
  | JsonResponse status _ => status
  | ErrorResponse code _ => code
  end.

(** ** The handler monad: state of the store, and exceptions *)

Definition handler (A : Type) : Type := Storage -> Storage * result A.

#[global] Instance handler_ret : MRet handler := fun A a st => (st, Ok a).
#[global] Instance handler_bind : MBind handler := fun A B f m st =>
  match m st with
  | (st', Ok a) => f a st'
  | (st', Raise e) => (st', Raise e)
  end.

Definition lift {A : Type} (r : result A) : handler A := fun st => (st, r).

Definition storage : handler Storage := fun st => (st, Ok st).

(** [self.counter += 1; return str(self.counter)] *)
Definition next_id : handler string := fun st =>
  let st' := {| items := items st; stats := stats st; counter := counter st + 1 |} in
  (st', Ok (Str.of_int (counter st'))).

(** [self.storage.items[item_id] = item] *)
Definition set_item (item_id : string) (item : Item) : handler unit := fun st =>
  ({| items := dict_set item_id item (items st); stats := stats st; counter := counter st |},
   Ok ()).

(** [self.storage.stats[item_id] = s] *)
Definition set_stats (item_id : string) (s : Stats) : handler unit := fun st =>
  ({| items := items st; stats := <[item_id := s]> (stats st); counter := counter st |},
   Ok ()).

(** ** Library functions *)

(** The two attributes of [urlparse]'s result that the handler reads. *)
Record ParseResult := { path : string; query : string }.

Class PyLib := {
  (** [json.loads(raw)] on a non-empty [bytes] *)
  json_loads : list Byte.byte -> result json;
  (** [urlparse(url)] *)
  urlparse : string -> ParseResult;
  (** [parse_qs(query)] *)
  parse_qs : string -> gmap string (list string);
  (** [int(s)] on a [str]; [None] stands for [ValueError] *)
  int_of_str : string -> option Z
}.

(** ** Handler *)

Section Handler.
Context `{PyLib}.

Definition _json_response (status : Z) (payload : json) : handler Response :=
  mret (JsonResponse status payload).

Definition send_error (code : Z) (message : string) : handler Response :=
  mret (ErrorResponse code message).

(** [raw] is what [self.rfile.read(length)] returned, empty when the request
    announces no body. *)
Definition _read_json (raw : list Byte.byte) : result json :=
  match raw with
  | [] => Ok JNull
  | _ =>
      match json_loads raw with
      | Ok v => Ok v
      | Raise JSONDecodeError => Ok JNull
      | Raise e => Raise e
      end
  end.

(** [now] is [datetime.now(timezone.utc).isoformat()] as read by this call.
    The [assert] of the source is the [lift] after the test on [errors]. *)
Definition _handle_create_item (raw : list Byte.byte) (now : string) : handler Response :=
  payload ← lift (_read_json raw);
  errors ← lift (_validate_item payload);
  match errors with
  | _ :: _ => _json_response 400 (JObj [("errors", JArr (JStr <$> errors))])
  | [] =>
      lift (match payload with JNull => Raise AssertionError | _ => Ok () end);;
      item_id ← next_id;
      title ← lift (py_getitem payload "title");
      description ← lift (py_getitem payload "description");
      price ← lift (py_getitem payload "price");
      sellerId ← lift (py_getitem payload "sellerId");
      let item := {| id := item_id; title := title; description := description;
                     price := price; sellerId := sellerId; createdAt := now |} in
      set_item item_id item;;
      set_stats item_id (new_Stats item_id);;
      _json_response 201 (JObj [("item", asdict_Item item)])
  end.

Definition _handle_get_item (item_id : string) : handler Response :=
  st ← storage;
  match dict_get item_id (items st) with
  | None => _json_response 404 (JObj [("error", JStr "item not found")])
  | Some item => _json_response 200 (JObj [("item", asdict_Item item)])
  end.

(** [x["createdAt"]] on an element of the listing, each of which is the
    [asdict] of an item. *)
Definition createdAt_key (x : json) : string :=
  match x with
  | JObj d => match dict_get "createdAt" d with Some (JStr s) => s | _ => "" end
  | _ => ""
  end.

Definition _handle_list_items (seller : option string) : handler Response :=
  match seller with
  | Some s =>
      match int_of_str s with
      | None => _json_response 400 (JObj [("error", JStr "sellerId must be integer")])
      | Some seller_id =>
          if negb ((111111 <=? seller_id) && (seller_id <=? 999999)) then
            _json_response 400 (JObj [("error", JStr "sellerId must be in range 111111-999999")])
          else
            st ← storage;
            let items := asdict_Item <$>
                           filter (λ item, py_eq_int (sellerId item) seller_id = true)
                                  (dict_values (items st)) in
            let items := sort_by createdAt_key items in
            _json_response 200 (JObj [("items", JArr items)])
      end
  | None => _json_response 400 (JObj [("error", JStr "sellerId is required")])
  end.

Definition _handle_stats (item_id : string) : handler Response :=
  st ← storage;
  match stats st !! item_id with
  | None => _json_response 404 (JObj [("error", JStr "stats not found")])
  | Some s => _json_response 200 (JObj [("statistics", asdict_Stats s)])
  end.

Definition do_POST (self_path : string) (raw : list Byte.byte) (now : string) : handler Response :=
  if String.eqb (Str.rstrip "/" self_path) "/api/1/item" then
    _handle_create_item raw now
  else send_error 404 "Not Found".

Definition do_GET (self_path : string) : handler Response :=
  let parsed := urlparse self_path in
  if Str.startswith (path parsed) "/api/1/item/" then
    let item_id := Str.last_segment (Str.split "/" (path parsed)) in
    _handle_get_item item_id
  else if Str.startswith (path parsed) "/api/1/items" then
    let params := parse_qs (query parsed) in
    let seller_ids := params !! "sellerId" in
    let seller := match seller_ids with Some (s :: _) => Some s | _ => None end in
    _handle_list_items seller
  else if Str.startswith (path parsed) "/api/1/statistics/" then
    let item_id := Str.last_segment (Str.split "/" (path parsed)) in
    _handle_stats item_id
  else send_error 404 "Not Found".

Definition handle (req : Request) : handler Response :=
  match req with
  | POST self_path raw now => do_POST self_path raw now
  | GET self_path => do_GET self_path
  end.

(** The server handling a sequence of requests: the responses, and the store
    at the end.  A handler that raises sends no response; the server goes
    on with the store as the handler left it. *)
Fixpoint serve (reqs : list Request) (st : Storage) : Storage * list (result Response) :=
  match reqs with
  | [] => (st, [])
  | req :: reqs' =>
      let '(st1, r) := handle req st in
      let '(st2, rs) := serve reqs' st1 in
      (st2, r :: rs)
  end.

End Handler.

(** ** Client: the base URL

    [AdApiClient.__init__] of [ad_api_client.py].  [environ] is the value of
    [os.environ.get("SERVICE_BASE_URL")]. *)

(** [x or y] for an optional [str] [x]: [None] and the empty string are
    falsy. *)
Definition or_else (x : option string) (y : string) : string :=
  match x with
  | Some (String a s) => String a s
  | _ => y
  end.

Definition AdApiClient_base_url (base_url environ : option string) : string :=
  Str.rstrip "/" (or_else base_url (or_else environ "http://localhost:8000")).

(** ** A small library for the examples

    [example_lib payload] decodes every body to [payload], cuts a URL at its
    first question mark, reads a query of the form [sellerId=<value>] and
    converts decimal numerals. *)

Fixpoint cut_query (url : string) : string * string :=
  match url with
  | EmptyString => (EmptyString, EmptyString)
  | String a url' =>
      if Ascii.eqb a "?" then (EmptyString, url')
      else let '(p, q) := cut_query url' in (String a p, q)
  end.

Definition example_urlparse (url : string) : ParseResult :=
  let '(p, q) := cut_query url in {| path := p; query := q |}.

Definition example_parse_qs (q : string) : gmap string (list string) :=
  if String.prefix "sellerId=" q then
    match String.substring 9 (String.length q - 9) q with
    | EmptyString => ∅
    | v => {[ "sellerId" := [v] ]}
    end
  else ∅.

Definition example_lib (payload : json) : PyLib :=
  {| json_loads := λ _, Ok payload;
     urlparse := example_urlparse;
     parse_qs := example_parse_qs;
     int_of_str := Str.to_int |}.

(** A non-empty request body. *)
Definition some_bytes : list Byte.byte := [Byte.x7b; Byte.x7d].

(** * Vocabulary of the properties *)

(** The violations collected for an object, written out. *)
Definition object_errors (d : list (string * json)) : list string :=
  let get k default := match dict_get k d with Some v => v | None => default end in
  let errors := append_if (negb (dict_mem "title" d)) [] "missing field: title" in
  let errors := append_if (negb (dict_mem "description" d)) errors "missing field: description" in
  let errors := append_if (negb (dict_mem "price" d)) errors "missing field: price" in
  let errors := append_if (negb (dict_mem "sellerId" d)) errors "missing field: sellerId" in
  let errors := append_if (negb (isinstance_str (get "title" (JStr ""))) || str_is_empty (get "title" (JStr "")))
                  errors "title must be non-empty string" in
  let errors := append_if (isinstance_str (get "title" (JStr "")) && (255 <? str_len (get "title" (JStr ""))))
                  errors "title too long" in
  let errors := append_if (negb (isinstance_str (get "description" (JStr ""))) || str_is_empty (get "description" (JStr "")))
                  errors "description must be non-empty string" in
  let errors := append_if (isinstance_str (get "description" (JStr "")) && (2000 <? str_len (get "description" (JStr ""))))
                  errors "description too long" in
  let errors := append_if (negb (isinstance_int (get "price" JNull)) || (int_value (get "price" JNull) <=? 0))
                  errors "price must be positive integer" in
  append_if (negb (isinstance_int (get "sellerId" JNull))
             || negb ((111111 <=? int_value (get "sellerId" JNull))
                      && (int_value (get "sellerId" JNull) <=? 999999)))
    errors "sellerId must be int in range 111111-999999".

(** The violation of the type or value rule of a required field. *)
Definition value_violation (field_name : string) : string :=
  if String.eqb field_name "title" then "title must be non-empty string"
  else if String.eqb field_name "description" then "description must be non-empty string"
  else if String.eqb field_name "price" then "price must be positive integer"
  else "sellerId must be int in range 111111-999999".

(** A payload whose four fields satisfy the rules of the data model. *)
Record ValidItemPayload (d : list (string * json)) : Prop := {
  valid_title : ∃ s, dict_get "title" d = Some (JStr s)
                     ∧ (0 < String.length s ≤ 255)%nat;
  valid_description : ∃ s, dict_get "description" d = Some (JStr s)
                           ∧ (0 < String.length s ≤ 2000)%nat;
  valid_price : ∃ n, dict_get "price" d = Some (JInt n) ∧ 0 < n;
  valid_sellerId : ∃ n, dict_get "sellerId" d = Some (JInt n) ∧ 111111 ≤ n ≤ 999999
}.

(** The payload of the test suite's fixtures. *)
Definition sample_payload (seller_id : Z) : list (string * json) :=
  [("title", JStr "bicycle"); ("description", JStr "mountain bike, good condition");
   ("price", JInt 15000); ("sellerId", JInt seller_id)].

(** The item built from an accepted object [d] under the identifier
    [item_id] at clock reading [now]. *)
Definition new_Item (item_id : string) (d : list (string * json)) (now : string) : Item :=
  {| id := item_id;
     title := default JNull (dict_get "title" d);
     description := default JNull (dict_get "description" d);
     price := default JNull (dict_get "price" d);
     sellerId := default JNull (dict_get "sellerId" d);
     createdAt := now |}.

(** The store after a successful create of [item]. *)
Definition store_Item (item : Item) (st : Storage) : Storage :=
  {| items := dict_set (id item) item (items st);
     stats := <[id item := new_Stats (id item)]> (stats st);
     counter := counter st + 1 |}.

(** The body of the response to a rejected create. *)
Definition errors_body (errors : list string) : json :=
  JObj [("errors", JArr (JStr <$> errors))].

(** The body of a response that carries one item. *)
Definition item_body (item : Item) : json := JObj [("item", asdict_Item item)].

(** A create request with body [payload] is answered 201. *)
Definition accepts `{PyLib} (payload : json) : Prop :=
  ∀ raw now st, _read_json raw = Ok payload →
    ∃ st' body, handle (POST "/api/1/item" raw now) st = (st', Ok (JsonResponse 201 body)).

(** A create request with body [payload] is answered 400 with a list of
    violations, and the store is left as it was. *)
Definition rejects `{PyLib} (payload : json) : Prop :=
  ∀ raw now st, _read_json raw = Ok payload →
    ∃ errors, errors ≠ []
      ∧ handle (POST "/api/1/item" raw now) st = (st, Ok (JsonResponse 400 (errors_body errors))).

(** The value of the [sellerId] query parameter that [do_GET] hands to the
    listing. *)
Definition seller_of `{PyLib} (self_path : string) : option string :=
  match parse_qs (query (urlparse self_path)) !! "sellerId" with
  | Some (s :: _) => Some s
  | _ => None
  end.

(** The body of a response that carries one message. *)
Definition error_body (message : string) : json := JObj [("error", JStr message)].

(** The keys of [x] and [y] are in order. *)
Definition key_le {A : Type} (key : A → string) (x y : A) : Prop :=
  String.leb (key x) (key y) = true.

(** [item.sellerId == seller_id] *)
Definition seller_matches (seller_id : Z) (item : Item) : Prop :=
  py_eq_int (sellerId item) seller_id = true.

#[global] Instance seller_matches_dec (seller_id : Z) (item : Item) :
  Decision (seller_matches seller_id item).
Proof. unfold seller_matches. apply _. Defined.

(** The body of the response to a listing. *)
Definition items_body (listing : list Item) : json :=
  JObj [("items", JArr (asdict_Item <$> listing))].

(** [body["item"]["id"]] of a response with status 201: the identifier that
    a successful create hands out. *)
Definition created_id (r : result Response) : option string :=
  match r with
  | Ok (JsonResponse status body) =>
      if status =? 201 then
        match py_getitem body "item" with
        | Ok item =>
            match py_getitem item "id" with
            | Ok (JStr item_id) => Some item_id
            | _ => None
            end
        | _ => None
        end
      else None
  | _ => None
  end.

(** The identifiers handed out in a run, in the order of creation. *)
Definition created_ids (rs : list (result Response)) : list string :=
  omap created_id rs.

(** Items and statistics go by pairs under the same identifier. *)
Record stats_consistent (st : Storage) : Prop := {
  stats_of_item : ∀ k, is_Some (dict_get k (items st)) ↔ is_Some (stats st !! k);
  item_key : ∀ k item, dict_get k (items st) = Some item → id item = k;
  stats_key : ∀ k s, stats st !! k = Some s → itemId s = k
}.

(** The body of the response that carries the statistics [s]. *)
Definition statistics_body (s : Stats) : json := JObj [("statistics", asdict_Stats s)].

(** A store of four items of two sellers, for the examples. *)
Definition example_item (item_id : string) (seller_id : Z) (now : string) : Item :=
  {| id := item_id; title := JStr "bicycle"; description := JStr "mountain bike";
     price := JInt 15000; sellerId := JInt seller_id; createdAt := now |}.

Definition example_store : Storage :=
  {| items := [("1", example_item "1" 200000 "2024-01-01T00:00:02+00:00");
               ("2", example_item "2" 200001 "2024-01-01T00:00:01+00:00");
               ("3", example_item "3" 200000 "2024-01-01T00:00:01+00:00");
               ("4", example_item "4" 200000 "2024-01-01T00:00:02+00:00")];
     stats := list_to_map [("1", new_Stats "1"); ("2", new_Stats "2");
                           ("3", new_Stats "3"); ("4", new_Stats "4")];
     counter := 4 |}.

(** ** Vocabulary of the further properties *)

(** The objects that the validator lets through.  The price may be [True],
    which is an [int] to [isinstance]. *)
Record AcceptedPayload (d : list (string * json)) : Prop := {
  accepted_title : ∃ s, dict_get "title" d = Some (JStr s)
                        ∧ (0 < String.length s ≤ 255)%nat;
  accepted_description : ∃ s, dict_get "description" d = Some (JStr s)
                              ∧ (0 < String.length s ≤ 2000)%nat;
  accepted_price : (∃ n, dict_get "price" d = Some (JInt n) ∧ 0 < n)
                   ∨ dict_get "price" d = Some (JBool true);
  accepted_sellerId : ∃ n, dict_get "sellerId" d = Some (JInt n) ∧ 111111 ≤ n ≤ 999999
}.

(** [long_payload] of the test suite's fixtures: a copy of [d] with the title
    and the description replaced. *)
Definition long_payload (d : list (string * json)) (t de : string) : list (string * json) :=
  dict_set "description" (JStr de) (dict_set "title" (JStr t) d).

(** The keys of the items are the numerals of 1 .. counter, in this order. *)
Definition well_formed (st : Storage) : Prop :=
  0 ≤ counter st ∧ (items st).*1 = Str.of_int <$> seqZ 1 (counter st).

(** Every record of statistics is as it was created. *)
Definition stats_untouched (st : Storage) : Prop :=
  ∀ k s, stats st !! k = Some s → s = new_Stats k.

(** [s] ends with the character [c]. *)
Definition ends_with (c : ascii) (s : string) : Prop :=
  ∃ p, s = p +:+ String c EmptyString.

(** * Properties *)

(** ** Facts on strings *)

Module StrFacts.

Lemma append_nil_l (s : string) : EmptyString +:+ s = s.
Proof. reflexivity. Qed.

Lemma append_cons (a : ascii) (p s : string) : String a p +:+ s = String a (p +:+ s).
Proof. reflexivity. Qed.

Lemma split_nonempty (c : ascii) (s : string) : Str.split c s ≠ [].
Proof.
  destruct s as [| a s]; cbn; [done |].
  destruct (Ascii.eqb a c); [done |]. by destruct (Str.split c s).
Qed.

Lemma split_lacks (c : ascii) (s : string) :
  Str.lacks c s = true → Str.split c s = [s].
Proof.
  induction s as [| a s IH]; cbn; [done |].
  intros [Ha Hs]%andb_true_iff. apply negb_true_iff in Ha. rewrite Ha, (IH Hs). done.
Qed.

Lemma last_cons_nonempty (x : string) (l : list string) :
  l ≠ [] → List.last (x :: l) EmptyString = List.last l EmptyString.
Proof. by destruct l. Qed.

(** The last segment of [p + c + s] is the last segment of [s]. *)
Lemma last_segment_app (c : ascii) (p s : string) :
  Str.last_segment (Str.split c (p +:+ String c s)) = Str.last_segment (Str.split c s)
  ∧ (2 ≤ length (Str.split c (p +:+ String c s)))%nat.
Proof.
  unfold Str.last_segment.
  induction p as [| a p [IH1 IH2]]; rewrite ?append_nil_l, ?append_cons; simpl.
  - rewrite Ascii.eqb_refl. split.
    + apply last_cons_nonempty, split_nonempty.
    + cbn. pose proof (split_nonempty c s). destruct (Str.split c s); [done | cbn; lia].
  - destruct (Ascii.eqb a c).
    + split; [| cbn; lia].
      rewrite last_cons_nonempty; [done |].
      intros E. rewrite E in IH2. cbn in IH2. lia.
    + destruct (Str.split c (p +:+ String c s)) as [| h [| h' t]] eqn:E;
        cbn in IH2; try lia.
      split; [| cbn; lia].
      rewrite <- IH1. done.
Qed.

Lemma last_segment_after (c : ascii) (p s : string) :
  Str.lacks c s = true →
  Str.last_segment (Str.split c (p +:+ String c s)) = s.
Proof.
  intros Hs. rewrite (proj1 (last_segment_app c p s)), (split_lacks c s Hs). done.
Qed.

Lemma prefix_app (p s : string) : String.prefix p (p +:+ s) = true.
Proof.
  induction p as [| a p IH]; rewrite ?append_nil_l, ?append_cons; cbn; [by destruct s |].
  destruct (ascii_dec a a); [done | congruence].
Qed.

Lemma prefix_inv (p s : string) :
  String.prefix p s = true → ∃ r, s = p +:+ r.
Proof.
  revert s. induction p as [| a p IH]; intros s; cbn.
  - intros _. by exists s.
  - destruct s as [| b s]; cbn; [done |].
    destruct (ascii_dec a b) as [<- |]; [| done].
    intros [r ->]%IH. exists r. by rewrite append_cons.
Qed.

(** [s.rstrip(c)] removes a run of [c] at the end. *)
Lemma rstrip_replicate (c : ascii) (n : nat) : Str.rstrip c (Str.replicate n c) = EmptyString.
Proof. induction n as [| n IH]; cbn; [done |]. by rewrite IH, Ascii.eqb_refl. Qed.

Lemma rstrip_app_replicate (c a : ascii) (p : string) (n : nat) :
  a ≠ c →
  Str.rstrip c ((p +:+ String a EmptyString) +:+ Str.replicate n c)
  = p +:+ String a EmptyString.
Proof.
  intros Hne. induction p as [| b p IH].
  - rewrite append_nil_l, append_cons, append_nil_l. cbn.
    rewrite rstrip_replicate. by apply Ascii.eqb_neq in Hne as ->.
  - rewrite !append_cons. cbn. rewrite IH.
    destruct p; by rewrite ?append_nil_l, ?append_cons.
Qed.

(** Decimal numerals *)

Lemma lacks_string_of_uint (c : ascii) (d : Decimal.uint) :
  Str.lacks c "0123456789" = true → Str.lacks c (NilEmpty.string_of_uint d) = true.
Proof.
  intros Hc. cbn in Hc.
  repeat match type of Hc with _ && _ = true => apply andb_true_iff in Hc as [? Hc] end.
  induction d; cbn; rewrite ?IHd; try done;
    match goal with |- negb ?b && true = true => by destruct b end.
Qed.

Lemma lacks_of_int (c : ascii) (n : Z) :
  Str.lacks c "-0123456789" = true → Str.lacks c (Str.of_int n) = true.
Proof.
  intros [Hm Hc]%andb_true_iff.
  assert (∀ d, Str.lacks c (NilZero.string_of_uint d) = true) as Hu.
  { intros d. pose proof (lacks_string_of_uint c d Hc) as Hd.
    destruct d; try exact Hd. cbn. cbn in Hc.
    by apply andb_true_iff in Hc as [-> _]. }
  unfold Str.of_int. destruct (Z.to_int n); cbn -[Ascii.eqb NilZero.string_of_uint];
    [apply Hu |].
  by rewrite Hm, Hu.
Qed.

Lemma to_int_of_int (n : Z) : Str.to_int (Str.of_int n) = Some n.
Proof.
  unfold Str.to_int, Str.of_int.
  rewrite NilZero.isi.
  - cbn. by rewrite DecimalZ.of_to.
  - destruct n; cbn; [done | |done].
    intros [= E]. by apply DecimalPos.Unsigned.to_uint_nonnil in E.
  - destruct n; cbn; [done | done |].
    intros [= E]. by apply DecimalPos.Unsigned.to_uint_nonnil in E.
Qed.

Lemma of_int_inj (n m : Z) : Str.of_int n = Str.of_int m → n = m.
Proof.
  intros E. apply (f_equal Str.to_int) in E. rewrite !to_int_of_int in E. congruence.
Qed.

End StrFacts.


(** ** Lists of violations *)

Example validate_empty_object :
  _validate_item (JObj []) =
  Ok ["missing field: title"; "missing field: description";
      "missing field: price"; "missing field: sellerId";
      "title must be non-empty string"; "description must be non-empty string";
      "price must be positive integer";
      "sellerId must be int in range 111111-999999"].
Proof. reflexivity. Qed.

Lemma elem_of_append_if (x msg : string) (c : bool) (errors : list string) :
  x ∈ append_if c errors msg ↔ x ∈ errors ∨ (c = true ∧ x = msg).
Proof.
  unfold append_if. destruct c.
  - rewrite elem_of_app, list_elem_of_singleton. intuition congruence.
  - intuition congruence.
Qed.

Lemma append_if_nil (c : bool) (errors : list string) (msg : string) :
  append_if c errors msg = [] ↔ errors = [] ∧ c = false.
Proof.
  unfold append_if. destruct c.
  - split; [intros E; apply app_eq_nil in E as [_ E]; discriminate | intros [_ E]; discriminate].
  - intuition.
Qed.

Lemma validate_item_object (d : list (string * json)) :
  _validate_item (JObj d) = Ok (object_errors d).
Proof. reflexivity. Qed.

(** The validator returns a list only for [None] and for a [dict]. *)
Lemma validate_item_Ok_inv (payload : json) (errors : list string) :
  _validate_item payload = Ok errors →
  (payload = JNull ∧ errors = ["body must be JSON"])
  ∨ (∃ d, payload = JObj d ∧ errors = object_errors d).
Proof.
  destruct payload as [| b | n | f | s | l | d]; intros E;
    try (cbn in E; discriminate E).
  - cbn in E. injection E as <-. by left.
  - rewrite validate_item_object in E. injection E as <-. right. by eexists.
Qed.

Ltac errors_membership :=
  unfold object_errors; rewrite ?elem_of_append_if, ?elem_of_nil.

(** C9: a required field that is absent from an object is reported twice, as
    missing and as violating its own type or value rule, because the rule is
    checked against the default of [get]; the empty object yields eight
    violations, two per field. *)
Theorem missing_field_reported_twice :
  (∀ (d : list (string * json)) (field_name : string),
     field_name ∈ required_fields →
     dict_get field_name d = None →
     ∃ errors, _validate_item (JObj d) = Ok errors
               ∧ ("missing field: " +:+ field_name) ∈ errors
               ∧ value_violation field_name ∈ errors)
  ∧ _validate_item (JObj []) =
      Ok ["missing field: title"; "missing field: description";
          "missing field: price"; "missing field: sellerId";
          "title must be non-empty string"; "description must be non-empty string";
          "price must be positive integer";
          "sellerId must be int in range 111111-999999"].
Proof.
  split; [| reflexivity].
  intros d field_name Hin Hnone.
  exists (object_errors d). split; [apply validate_item_object |].
  unfold required_fields in Hin.
  rewrite !elem_of_cons, elem_of_nil in Hin.
  destruct Hin as [-> | [-> | [-> | [-> | []]]]]; cbn [value_violation String.eqb Ascii.eqb Bool.eqb];
    split; errors_membership; unfold dict_mem; rewrite Hnone; cbn; tauto.
Qed.

Lemma missing_field_reported_twice_witness :
  dict_get "price" [("title", JStr "bicycle")] = None
  ∧ ∃ errors, _validate_item (JObj [("title", JStr "bicycle")]) = Ok errors
              ∧ "missing field: price" ∈ errors
              ∧ "price must be positive integer" ∈ errors.
Proof.
  split; [reflexivity |].
  apply (proj1 missing_field_reported_twice [("title", JStr "bicycle")] "price");
    [unfold required_fields; rewrite !elem_of_cons; tauto | reflexivity].
Defined.

(** ** The two checks of a text field *)

Lemma text_checks_exclusive (v : json) (bound : Z) :
  0 ≤ bound →
  (negb (isinstance_str v) || str_is_empty v = true) →
  (isinstance_str v && (bound <? str_len v) = true) →
  False.
Proof.
  intros Hb H1 H2. destruct v as [| | | | s | |]; try discriminate H2.
  destruct s; [| cbn in H1; discriminate H1].
  cbn in H2. apply Z.ltb_lt in H2. lia.
Qed.

Lemma elem_of_append_if_ne (x msg : string) (c : bool) (errors : list string) :
  x ≠ msg → x ∈ append_if c errors msg ↔ x ∈ errors.
Proof. rewrite elem_of_append_if. intuition. Qed.

Lemma elem_of_append_if_same (msg : string) (c : bool) (errors : list string) :
  msg ∈ append_if c errors msg ↔ msg ∈ errors ∨ c = true.
Proof. rewrite elem_of_append_if. intuition. Qed.

(** Membership of a given message in the violations of an object comes down
    to the condition of the one check that reports it. *)
Ltac violation_condition H :=
  unfold object_errors in H; cbv zeta in H;
  repeat first [ rewrite elem_of_append_if_ne in H by discriminate
               | rewrite elem_of_append_if_same in H ];
  rewrite elem_of_nil in H;
  destruct H as [[] | H].

Lemma title_violations_exclusive (d : list (string * json)) :
  "title must be non-empty string" ∈ object_errors d →
  "title too long" ∈ object_errors d →
  False.
Proof.
  intros H1 H2. violation_condition H1. violation_condition H2.
  exact (text_checks_exclusive _ 255 ltac:(lia) H1 H2).
Qed.

Lemma description_violations_exclusive (d : list (string * json)) :
  "description must be non-empty string" ∈ object_errors d →
  "description too long" ∈ object_errors d →
  False.
Proof.
  intros H1 H2. violation_condition H1. violation_condition H2.
  exact (text_checks_exclusive _ 2000 ltac:(lia) H1 H2).
Qed.

(** The claim of C2 fails: no input makes the validator report both
    violations of the title, and a title of 260 characters yields the
    length violation alone. *)
Lemma title_violations_never_together :
  _validate_item (JObj [("title", JStr (Str.replicate 260 "a"));
                        ("description", JStr "mountain bike");
                        ("price", JInt 15000); ("sellerId", JInt 111111)])
    = Ok ["title too long"]
  ∧ ¬ ∃ payload errors,
        _validate_item payload = Ok errors
        ∧ "title must be non-empty string" ∈ errors
        ∧ "title too long" ∈ errors.
Proof.
  split; [vm_compute; reflexivity |].
  intros (payload & errors & E & H1 & H2).
  apply validate_item_Ok_inv in E as [[_ ->] | (d & _ & ->)].
  - rewrite list_elem_of_singleton in H1. discriminate H1.
  - exact (title_violations_exclusive d H1 H2).
Qed.


(** ** Creating an item *)

Lemma dict_mem_true {V : Type} (k : string) (d : list (string * V)) :
  dict_mem k d = true → ∃ v, dict_get k d = Some v.
Proof. unfold dict_mem. destruct (dict_get k d); [eauto | discriminate]. Qed.

Lemma object_errors_nil_fields (d : list (string * json)) :
  object_errors d = [] →
  ∃ t de p s, dict_get "title" d = Some t ∧ dict_get "description" d = Some de
              ∧ dict_get "price" d = Some p ∧ dict_get "sellerId" d = Some s.
Proof.
  unfold object_errors; cbv zeta. rewrite !append_if_nil.
  intros E. repeat match goal with E : _ ∧ _ |- _ => destruct E end.
  assert (∀ k, negb (dict_mem k d) = false → ∃ v, dict_get k d = Some v) as Hget
    by (intros k Hk; by apply dict_mem_true, negb_false_iff).
  destruct (Hget "title") as [t Ht]; [done |].
  destruct (Hget "description") as [de Hde]; [done |].
  destruct (Hget "price") as [p Hp]; [done |].
  destruct (Hget "sellerId") as [s Hs]; [done |].
  eauto 10.
Qed.

Section Create.
Context `{PyLib}.

Lemma create_item_raises_read (raw : list Byte.byte) (now : string) (st : Storage) (e : exn) :
  _read_json raw = Raise e →
  _handle_create_item raw now st = (st, Raise e).
Proof.
  intros E. unfold _handle_create_item, mbind, handler_bind, lift. by rewrite E.
Qed.

Lemma create_item_raises_validate (raw : list Byte.byte) (now : string) (st : Storage)
    (payload : json) (e : exn) :
  _read_json raw = Ok payload →
  _validate_item payload = Raise e →
  _handle_create_item raw now st = (st, Raise e).
Proof.
  intros E1 E2. unfold _handle_create_item, mbind, handler_bind, lift. by rewrite E1, E2.
Qed.

Lemma create_item_rejected (raw : list Byte.byte) (now : string) (st : Storage)
    (payload : json) (errors : list string) :
  _read_json raw = Ok payload →
  _validate_item payload = Ok errors →
  errors ≠ [] →
  _handle_create_item raw now st = (st, Ok (JsonResponse 400 (errors_body errors))).
Proof.
  intros E1 E2 Hne. unfold _handle_create_item, mbind, handler_bind, lift.
  rewrite E1, E2. by destruct errors.
Qed.

Lemma create_item_accepted (raw : list Byte.byte) (now : string) (st : Storage)
    (d : list (string * json)) :
  _read_json raw = Ok (JObj d) →
  object_errors d = [] →
  let item := new_Item (Str.of_int (counter st + 1)) d now in
  _handle_create_item raw now st = (store_Item item st, Ok (JsonResponse 201 (item_body item))).
Proof.
  intros E1 E2 item. subst item.
  destruct (object_errors_nil_fields d E2) as (t & de & p & s & Ht & Hde & Hp & Hs).
  unfold _handle_create_item, mbind, handler_bind, lift.
  rewrite E1, validate_item_object, E2.
  unfold next_id, py_getitem, set_item, set_stats, _json_response, mret, handler_ret,
    new_Item, store_Item, item_body.
  cbn. rewrite Ht, Hde, Hp, Hs. reflexivity.
Qed.

(** The three outcomes of a create. *)
Lemma create_item_cases (raw : list Byte.byte) (now : string) (st : Storage) :
  (∃ e, _handle_create_item raw now st = (st, Raise e))
  ∨ (∃ errors, errors ≠ []
       ∧ _handle_create_item raw now st = (st, Ok (JsonResponse 400 (errors_body errors))))
  ∨ (∃ d, _read_json raw = Ok (JObj d) ∧ object_errors d = []
       ∧ _handle_create_item raw now st =
           (store_Item (new_Item (Str.of_int (counter st + 1)) d now) st,
            Ok (JsonResponse 201
                  (item_body (new_Item (Str.of_int (counter st + 1)) d now))))).
Proof.
  destruct (_read_json raw) as [payload | e] eqn:E1.
  2: { left. exists e. by apply create_item_raises_read. }
  destruct (_validate_item payload) as [errors | e] eqn:E2.
  2: { left. exists e. by eapply create_item_raises_validate. }
  destruct errors as [| msg errors].
  - apply validate_item_Ok_inv in E2 as [[_ [=]] | (d & -> & Hd)].
    right; right. exists d. split; [done |]. split; [done |].
    by apply create_item_accepted.
  - right; left. exists (msg :: errors). split; [done |].
    by eapply create_item_rejected.
Qed.

End Create.

(** ** Accepted and rejected payloads *)

Lemma dict_get_set_eq {V : Type} (k : string) (v : V) (d : list (string * V)) :
  dict_get k (dict_set k v d) = Some v.
Proof.
  induction d as [| [k' v'] d IH]; cbn.
  - by rewrite String.eqb_refl.
  - destruct (String.eqb k k') eqn:E; cbn; [by rewrite String.eqb_refl | by rewrite E].
Qed.

Lemma dict_get_set_ne {V : Type} (k k' : string) (v : V) (d : list (string * V)) :
  k ≠ k' → dict_get k' (dict_set k v d) = dict_get k' d.
Proof.
  intros Hne. induction d as [| [k0 v0] d IH]; cbn.
  - apply String.eqb_neq in Hne. rewrite String.eqb_sym in Hne. by rewrite Hne.
  - destruct (String.eqb k k0) eqn:E; cbn.
    + apply String.eqb_eq in E as <-.
      assert (String.eqb k' k = false) as -> by (apply String.eqb_neq; congruence).
      reflexivity.
    + by rewrite IH.
Qed.

Lemma valid_payload_no_errors (d : list (string * json)) :
  ValidItemPayload d → object_errors d = [].
Proof.
  intros [(t & Ht & Ht1 & Ht2) (de & Hde & Hd1 & Hd2) (p & Hp & Hp1) (s & Hs & Hs1 & Hs2)].
  unfold object_errors; cbv zeta. unfold dict_mem. rewrite Ht, Hde, Hp, Hs.
  assert (str_is_empty (JStr t) = false) as -> by (destruct t; [cbn in Ht1; lia | done]).
  assert (str_is_empty (JStr de) = false) as -> by (destruct de; [cbn in Hd1; lia | done]).
  cbn [negb isinstance_str isinstance_int int_value str_len orb andb].
  assert ((255 <? Z.of_nat (String.length t)) = false) as -> by (apply Z.ltb_ge; lia).
  assert ((2000 <? Z.of_nat (String.length de)) = false) as -> by (apply Z.ltb_ge; lia).
  assert ((p <=? 0) = false) as -> by (apply Z.leb_gt; lia).
  assert ((111111 <=? s) = true) as -> by (apply Z.leb_le; lia).
  assert ((s <=? 999999) = true) as -> by (apply Z.leb_le; lia).
  reflexivity.
Qed.

Ltac violation_condition_goal :=
  unfold object_errors; cbv zeta;
  repeat first [ rewrite elem_of_append_if_ne by discriminate
               | rewrite elem_of_append_if_same ];
  rewrite elem_of_nil.

Lemma sellerId_violation (d : list (string * json)) :
  negb (isinstance_int (default JNull (dict_get "sellerId" d)))
  || negb ((111111 <=? int_value (default JNull (dict_get "sellerId" d)))
           && (int_value (default JNull (dict_get "sellerId" d)) <=? 999999)) = true →
  "sellerId must be int in range 111111-999999" ∈ object_errors d.
Proof. violation_condition_goal. unfold default. tauto. Qed.

Lemma title_empty_violation (d : list (string * json)) :
  negb (isinstance_str (default (JStr "") (dict_get "title" d)))
  || str_is_empty (default (JStr "") (dict_get "title" d)) = true →
  "title must be non-empty string" ∈ object_errors d.
Proof. violation_condition_goal. unfold default. tauto. Qed.

Lemma title_long_violation (d : list (string * json)) :
  isinstance_str (default (JStr "") (dict_get "title" d))
  && (255 <? str_len (default (JStr "") (dict_get "title" d))) = true →
  "title too long" ∈ object_errors d.
Proof. violation_condition_goal. unfold default. tauto. Qed.

(** C2, amended: the check "wrong type or empty" and the check "too long" of
    the title, and likewise of the description, are separate tests whose
    conditions exclude each other: whatever the payload, the validator never
    reports both for the same field; a title longer than 255 characters is
    reported as too long and not as empty or of the wrong type. *)
Theorem text_field_violations_exclusive :
  (∀ payload errors,
     _validate_item payload = Ok errors →
     ¬ ("title must be non-empty string" ∈ errors ∧ "title too long" ∈ errors)
     ∧ ¬ ("description must be non-empty string" ∈ errors
          ∧ "description too long" ∈ errors))
  ∧ (∀ d t,
     dict_get "title" d = Some (JStr t) →
     (255 < String.length t)%nat →
     ∃ errors, _validate_item (JObj d) = Ok errors
               ∧ "title too long" ∈ errors
               ∧ "title must be non-empty string" ∉ errors).
Proof.
  split.
  - intros payload errors E.
    apply validate_item_Ok_inv in E as [[_ ->] | (d & _ & ->)].
    + rewrite !list_elem_of_singleton. split; intros [H _]; discriminate H.
    + split; intros [H1 H2].
      * exact (title_violations_exclusive d H1 H2).
      * exact (description_violations_exclusive d H1 H2).
  - intros d t Ht Hlen. exists (object_errors d).
    split; [apply validate_item_object |].
    assert ("title too long" ∈ object_errors d) as Hlong.
    { apply title_long_violation. rewrite Ht. cbn. apply Z.ltb_lt. lia. }
    split; [exact Hlong |].
    intros Hempty. exact (title_violations_exclusive d Hempty Hlong).
Qed.

Lemma text_field_violations_exclusive_witness :
  ∃ errors,
    _validate_item (JObj [("title", JStr (Str.replicate 260 "a"));
                          ("description", JStr (Str.replicate 2100 "b"));
                          ("price", JInt 15000); ("sellerId", JInt 111111)])
    = Ok errors
    ∧ "title too long" ∈ errors
    ∧ "title must be non-empty string" ∉ errors.
Proof.
  apply (proj2 text_field_violations_exclusive _ (Str.replicate 260 "a")).
  - reflexivity.
  - vm_compute. lia.
Defined.

Section Boundaries.
Context `{PyLib}.

Lemma do_POST_item (raw : list Byte.byte) (now : string) :
  handle (POST "/api/1/item" raw now) = _handle_create_item raw now.
Proof. reflexivity. Qed.

Lemma valid_payload_accepted (d : list (string * json)) :
  ValidItemPayload d → accepts (JObj d).
Proof.
  intros Hd raw now st E. rewrite do_POST_item.
  rewrite (create_item_accepted raw now st d E (valid_payload_no_errors d Hd)).
  eauto.
Qed.

Lemma violation_rejected (d : list (string * json)) (msg : string) :
  msg ∈ object_errors d → rejects (JObj d).
Proof.
  intros Hin raw now st E. rewrite do_POST_item.
  exists (object_errors d).
  assert (object_errors d ≠ []) as Hne by (intros E0; rewrite E0 in Hin; by apply elem_of_nil in Hin).
  split; [done |].
  by apply (create_item_rejected raw now st (JObj d)).
Qed.

End Boundaries.

Lemma valid_payload_set_sellerId (d : list (string * json)) (n : Z) :
  ValidItemPayload d → 111111 ≤ n ≤ 999999 →
  ValidItemPayload (dict_set "sellerId" (JInt n) d).
Proof.
  intros [Ht Hde Hp Hs] Hn.
  split; rewrite ?dict_get_set_eq, ?dict_get_set_ne by discriminate; eauto.
Qed.

Lemma valid_payload_set_title (d : list (string * json)) (t : string) :
  ValidItemPayload d → (0 < String.length t ≤ 255)%nat →
  ValidItemPayload (dict_set "title" (JStr t) d).
Proof.
  intros [Ht Hde Hp Hs] Hn.
  split; rewrite ?dict_get_set_eq, ?dict_get_set_ne by discriminate; eauto.
Qed.

(** C7: with the other fields valid, a create with [sellerId] 111111 or
    999999 is accepted and one with 111110 or 1000000 is rejected with status
    400; a title of 255 characters is accepted, a title of 256 characters and
    the empty title are rejected with status 400. *)
Theorem create_boundaries (lib : PyLib) (d : list (string * json)) :
  ValidItemPayload d →
  accepts (JObj (dict_set "sellerId" (JInt 111111) d))
  ∧ accepts (JObj (dict_set "sellerId" (JInt 999999) d))
  ∧ rejects (JObj (dict_set "sellerId" (JInt 111110) d))
  ∧ rejects (JObj (dict_set "sellerId" (JInt 1000000) d))
  ∧ (∀ t, String.length t = 255%nat → accepts (JObj (dict_set "title" (JStr t) d)))
  ∧ (∀ t, String.length t = 256%nat → rejects (JObj (dict_set "title" (JStr t) d)))
  ∧ rejects (JObj (dict_set "title" (JStr "") d)).
Proof.
  intros Hd. repeat split.
  - apply valid_payload_accepted, valid_payload_set_sellerId; [done | lia].
  - apply valid_payload_accepted, valid_payload_set_sellerId; [done | lia].
  - eapply violation_rejected, sellerId_violation. by rewrite dict_get_set_eq.
  - eapply violation_rejected, sellerId_violation. by rewrite dict_get_set_eq.
  - intros t Ht. apply valid_payload_accepted, valid_payload_set_title; [done | lia].
  - intros t Ht. eapply violation_rejected, title_long_violation.
    rewrite dict_get_set_eq. cbn. rewrite Ht. reflexivity.
  - eapply violation_rejected, title_empty_violation. by rewrite dict_get_set_eq.
Qed.

Lemma sample_payload_valid (seller_id : Z) :
  111111 ≤ seller_id ≤ 999999 → ValidItemPayload (sample_payload seller_id).
Proof.
  intros Hs. split; cbn.
  - eexists; split; [reflexivity | cbn; lia].
  - eexists; split; [reflexivity | cbn; lia].
  - eexists; split; [reflexivity | lia].
  - eexists; split; [reflexivity | lia].
Qed.

Lemma create_boundaries_witness :
  ValidItemPayload (sample_payload 500000)
  ∧ (∃ st' body,
        handle (H := example_lib (JObj (sample_payload 111111)))
          (POST "/api/1/item" some_bytes "2024-01-01T00:00:00+00:00") empty_Storage
        = (st', Ok (JsonResponse 201 body)))
  ∧ (∃ errors,
        errors ≠ []
        ∧ handle (H := example_lib (JObj (sample_payload 111110)))
            (POST "/api/1/item" some_bytes "2024-01-01T00:00:00+00:00") empty_Storage
          = (empty_Storage, Ok (JsonResponse 400 (errors_body errors)))).
Proof.
  pose proof (sample_payload_valid 500000 ltac:(lia)) as Hv.
  split; [exact Hv |].
  split.
  - destruct (create_boundaries (example_lib (JObj (sample_payload 111111)))
                (sample_payload 500000) Hv) as (Ha & _).
    apply Ha. reflexivity.
  - destruct (create_boundaries (example_lib (JObj (sample_payload 111110)))
                (sample_payload 500000) Hv) as (_ & _ & Hr & _).
    apply Hr. reflexivity.
Defined.

(** ** Routing *)

Section Routing.
Context `{PyLib}.

Lemma items_prefix_not_item (p : string) :
  Str.startswith p "/api/1/items" = true → Str.startswith p "/api/1/item/" = false.
Proof.
  unfold Str.startswith. intros [r ->]%StrFacts.prefix_inv. reflexivity.
Qed.

Lemma do_GET_items (self_path : string) :
  Str.startswith (path (urlparse self_path)) "/api/1/items" = true →
  handle (GET self_path) = _handle_list_items (seller_of self_path).
Proof.
  intros Hp. cbn [handle]. unfold do_GET, seller_of.
  by rewrite (items_prefix_not_item _ Hp), Hp.
Qed.

Lemma do_GET_item (self_path : string) :
  Str.startswith (path (urlparse self_path)) "/api/1/item/" = true →
  handle (GET self_path) =
    _handle_get_item (Str.last_segment (Str.split "/" (path (urlparse self_path)))).
Proof. intros Hp. cbn [handle]. unfold do_GET. by rewrite Hp. Qed.

Lemma do_POST_trailing_slashes (n : nat) (raw : list Byte.byte) (now : string) :
  handle (POST ("/api/1/item" +:+ Str.replicate n "/") raw now) = _handle_create_item raw now.
Proof.
  cbn [handle]. unfold do_POST.
  change "/api/1/item" with ("/api/1/ite" +:+ String "m" EmptyString) at 1.
  by rewrite StrFacts.rstrip_app_replicate.
Qed.

Lemma list_items_cases (seller : option string) (st : Storage) :
  ∃ status body, _handle_list_items seller st = (st, Ok (JsonResponse status body))
                 ∧ (status = 400 ∨ status = 200).
Proof.
  unfold _handle_list_items. destruct seller as [s |]; [| eauto 10].
  destruct (int_of_str s) as [n |]; [| eauto 10].
  destruct (negb _); eauto 10.
Qed.

End Routing.

(** C10: GET routes are matched by prefix of the path, not by the whole path:
    every path that starts with [/api/1/items] goes to the listing and is
    never answered 404, every path that starts with [/api/1/item/] goes to
    get-by-id with its last segment as the identifier; POST takes
    [/api/1/item] followed by any number of slashes as a create. *)
Theorem routes_match_by_prefix (lib : PyLib) :
  (∀ self_path,
      Str.startswith (path (urlparse self_path)) "/api/1/items" = true →
      handle (GET self_path) = _handle_list_items (seller_of self_path)
      ∧ ∀ st, ∃ r, (handle (GET self_path) st).2 = Ok r ∧ status_of r ≠ 404)
  ∧ (∀ self_path,
      Str.startswith (path (urlparse self_path)) "/api/1/item/" = true →
      handle (GET self_path) =
        _handle_get_item (Str.last_segment (Str.split "/" (path (urlparse self_path)))))
  ∧ (∀ n raw now,
      handle (POST ("/api/1/item" +:+ Str.replicate n "/") raw now)
      = _handle_create_item raw now).
Proof.
  split; [| split].
  - intros self_path Hp. split; [by apply do_GET_items |].
    intros st. rewrite (do_GET_items _ Hp).
    destruct (list_items_cases (seller_of self_path) st) as (status & body & -> & Hs).
    eexists. split; [reflexivity |]. cbn. lia.
  - apply @do_GET_item.
  - apply @do_POST_trailing_slashes.
Qed.

Lemma routes_match_by_prefix_witness :
  Str.startswith (path (example_urlparse "/api/1/items/extra")) "/api/1/items" = true
  ∧ handle (H := example_lib JNull) (GET "/api/1/items/extra") empty_Storage
    = (empty_Storage, Ok (JsonResponse 400 (error_body "sellerId is required")))
  ∧ Str.startswith (path (example_urlparse "/api/1/item/a/b/7")) "/api/1/item/" = true
  ∧ handle (H := example_lib JNull) (GET "/api/1/item/a/b/7")
    = _handle_get_item "7".
Proof.
  pose proof (routes_match_by_prefix (example_lib JNull)) as (Hitems & Hitem & _).
  split; [reflexivity |]. split.
  - rewrite (proj1 (Hitems "/api/1/items/extra" eq_refl)). reflexivity.
  - split; [reflexivity |]. exact (Hitem "/api/1/item/a/b/7" eq_refl).
Defined.

(** ** Listing: the query parameter *)

(** C8: a GET of [/api/1/items] is answered 400 when the [sellerId]
    parameter is missing, 400 when it is not an integer, 400 when it is an
    integer outside 111111..999999, each with a message of its own, and 200
    with a list of items for every integer within the range. *)
Theorem list_items_query_statuses (lib : PyLib) (self_path : string) (st : Storage) :
  Str.startswith (path (urlparse self_path)) "/api/1/items" = true →
  (seller_of self_path = None →
     handle (GET self_path) st
     = (st, Ok (JsonResponse 400 (error_body "sellerId is required"))))
  ∧ (∀ s, seller_of self_path = Some s → int_of_str s = None →
     handle (GET self_path) st
     = (st, Ok (JsonResponse 400 (error_body "sellerId must be integer"))))
  ∧ (∀ s n, seller_of self_path = Some s → int_of_str s = Some n →
     ¬ (111111 ≤ n ≤ 999999) →
     handle (GET self_path) st
     = (st, Ok (JsonResponse 400 (error_body "sellerId must be in range 111111-999999"))))
  ∧ (∀ s n, seller_of self_path = Some s → int_of_str s = Some n →
     111111 ≤ n ≤ 999999 →
     ∃ listing, handle (GET self_path) st
                = (st, Ok (JsonResponse 200 (JObj [("items", JArr listing)])))).
Proof.
  intros Hp. rewrite (do_GET_items _ Hp). unfold _handle_list_items.
  repeat split.
  - by intros ->.
  - intros s -> ->. done.
  - intros s n -> -> Hn.
    assert ((111111 <=? n) && (n <=? 999999) = false) as ->; [| done].
    apply andb_false_iff. rewrite Z.leb_gt, Z.leb_gt. lia.
  - intros s n -> -> Hn.
    assert ((111111 <=? n) && (n <=? 999999) = true) as ->.
    { apply andb_true_iff. rewrite !Z.leb_le. lia. }
    eexists. reflexivity.
Qed.

Lemma list_items_query_statuses_witness :
  Str.startswith (path (example_urlparse "/api/1/items?sellerId=abc")) "/api/1/items" = true
  ∧ handle (H := example_lib JNull) (GET "/api/1/items") empty_Storage
    = (empty_Storage, Ok (JsonResponse 400 (error_body "sellerId is required")))
  ∧ handle (H := example_lib JNull) (GET "/api/1/items?sellerId=abc") empty_Storage
    = (empty_Storage, Ok (JsonResponse 400 (error_body "sellerId must be integer")))
  ∧ handle (H := example_lib JNull) (GET "/api/1/items?sellerId=100") empty_Storage
    = (empty_Storage,
       Ok (JsonResponse 400 (error_body "sellerId must be in range 111111-999999")))
  ∧ ∃ listing,
      handle (H := example_lib JNull) (GET "/api/1/items?sellerId=200000") empty_Storage
      = (empty_Storage, Ok (JsonResponse 200 (JObj [("items", JArr listing)]))).
Proof.
  split; [reflexivity |]. split; [| split; [| split]].
  - apply (list_items_query_statuses (example_lib JNull) "/api/1/items" empty_Storage eq_refl).
    reflexivity.
  - apply (list_items_query_statuses (example_lib JNull) "/api/1/items?sellerId=abc"
             empty_Storage eq_refl) with "abc"; reflexivity.
  - apply (list_items_query_statuses (example_lib JNull) "/api/1/items?sellerId=100"
             empty_Storage eq_refl) with "100" 100; [reflexivity | reflexivity | lia].
  - apply (list_items_query_statuses (example_lib JNull) "/api/1/items?sellerId=200000"
             empty_Storage eq_refl) with "200000" 200000; [reflexivity | reflexivity | lia].
Defined.

(** ** Bodies that are not objects *)

Section Bodies.
Context `{PyLib}.

(** A request without a body, or with a body that is not JSON, is answered
    400 with the one generic violation. *)
Lemma create_unparsable_body (raw : list Byte.byte) (now : string) (st : Storage) :
  raw = [] ∨ json_loads raw = Raise JSONDecodeError ∨ json_loads raw = Ok JNull →
  handle (POST "/api/1/item" raw now) st
  = (st, Ok (JsonResponse 400 (errors_body ["body must be JSON"]))).
Proof.
  intros Hraw. rewrite do_POST_item.
  apply (create_item_rejected raw now st JNull); [| done | done].
  unfold _read_json. destruct raw as [| b raw]; [done |].
  destruct Hraw as [[=] | [-> | ->]]; done.
Qed.

End Bodies.

(** C3, on the code: a body that parses to a JSON array or to a JSON string
    makes the handler raise [AttributeError], and a body that parses to a
    number or a boolean makes it raise [TypeError]; no response is written
    and the store is untouched. *)
Theorem create_non_object_body_raises (lib : PyLib) (raw : list Byte.byte) (now : string)
    (st : Storage) (payload : json) :
  _read_json raw = Ok payload →
  match payload with
  | JNull | JObj _ => True
  | JArr _ | JStr _ =>
      handle (POST "/api/1/item" raw now) st = (st, Raise AttributeError)
  | JBool _ | JInt _ | JFloat _ =>
      handle (POST "/api/1/item" raw now) st = (st, Raise TypeError)
  end.
Proof.
  intros E. rewrite do_POST_item.
  destruct payload; try done;
    by apply (create_item_raises_validate raw now st _ _ E).
Qed.

Lemma create_non_object_body_raises_witness :
  handle (H := example_lib (JArr [])) (POST "/api/1/item" some_bytes "2024-01-01T00:00:00+00:00")
    empty_Storage
  = (empty_Storage, Raise AttributeError).
Proof.
  exact (create_non_object_body_raises (example_lib (JArr [])) some_bytes
           "2024-01-01T00:00:00+00:00" empty_Storage (JArr []) eq_refl).
Defined.

(** ** Create, then get *)

Section RoundTrip.
Context `{PyLib}.

Lemma get_item_found (item_id : string) (item : Item) (st : Storage) :
  dict_get item_id (items st) = Some item →
  _handle_get_item item_id st = (st, Ok (JsonResponse 200 (item_body item))).
Proof. intros E. unfold _handle_get_item, mbind, handler_bind, storage. by rewrite E. Qed.

Lemma get_item_missing (item_id : string) (st : Storage) :
  dict_get item_id (items st) = None →
  _handle_get_item item_id st = (st, Ok (JsonResponse 404 (error_body "item not found"))).
Proof. intros E. unfold _handle_get_item, mbind, handler_bind, storage. by rewrite E. Qed.

(** The route of get-by-id for the decimal identifier of [n]. *)
Lemma do_GET_item_of_int (n : Z) :
  path (urlparse ("/api/1/item/" +:+ Str.of_int n)) = "/api/1/item/" +:+ Str.of_int n →
  handle (GET ("/api/1/item/" +:+ Str.of_int n)) = _handle_get_item (Str.of_int n).
Proof.
  intros Hurl. rewrite do_GET_item; rewrite Hurl.
  - change ("/api/1/item/" +:+ Str.of_int n)
      with ("/api/1/item" +:+ String "/" (Str.of_int n)).
    by rewrite StrFacts.last_segment_after by (by apply StrFacts.lacks_of_int).
  - apply StrFacts.prefix_app.
Qed.

End RoundTrip.

(** C1: a create with valid fields is answered 201 with the new item, a get
    of [/api/1/item/<id>] with the identifier of that item is then answered
    200 with the same item, and its title, description, price and sellerId
    are those of the payload. *)
Theorem create_then_get_round_trip (lib : PyLib) (raw : list Byte.byte) (now : string)
    (st : Storage) (d : list (string * json)) :
  ValidItemPayload d →
  _read_json raw = Ok (JObj d) →
  path (urlparse ("/api/1/item/" +:+ Str.of_int (counter st + 1)))
    = "/api/1/item/" +:+ Str.of_int (counter st + 1) →
  ∃ st' item,
    handle (POST "/api/1/item" raw now) st = (st', Ok (JsonResponse 201 (item_body item)))
    ∧ handle (GET ("/api/1/item/" +:+ id item)) st'
      = (st', Ok (JsonResponse 200 (item_body item)))
    ∧ (∀ field_name, field_name ∈ required_fields →
         py_getitem (asdict_Item item) field_name = py_getitem (JObj d) field_name).
Proof.
  intros Hd Hraw Hurl.
  exists (store_Item (new_Item (Str.of_int (counter st + 1)) d now) st),
         (new_Item (Str.of_int (counter st + 1)) d now).
  split; [| split].
  - rewrite do_POST_item.
    apply (create_item_accepted raw now st d Hraw (valid_payload_no_errors d Hd)).
  - cbn [id new_Item]. rewrite (do_GET_item_of_int _ Hurl).
    apply get_item_found. cbn. apply dict_get_set_eq.
  - destruct Hd as [(t & Ht & _) (de & Hde & _) (p & Hp & _) (s & Hs & _)].
    intros field_name Hf. unfold required_fields in Hf.
    rewrite !elem_of_cons, elem_of_nil in Hf.
    destruct Hf as [-> | [-> | [-> | [-> | []]]]]; cbn; by rewrite ?Ht, ?Hde, ?Hp, ?Hs.
Qed.

Lemma create_then_get_round_trip_witness :
  ∃ st' item,
    handle (H := example_lib (JObj (sample_payload 200000)))
      (POST "/api/1/item" some_bytes "2024-01-01T00:00:00+00:00") empty_Storage
    = (st', Ok (JsonResponse 201 (item_body item)))
    ∧ handle (H := example_lib (JObj (sample_payload 200000)))
        (GET ("/api/1/item/" +:+ id item)) st'
      = (st', Ok (JsonResponse 200 (item_body item)))
    ∧ (∀ field_name, field_name ∈ required_fields →
         py_getitem (asdict_Item item) field_name
         = py_getitem (JObj (sample_payload 200000)) field_name).
Proof.
  apply (create_then_get_round_trip (example_lib (JObj (sample_payload 200000)))
           some_bytes "2024-01-01T00:00:00+00:00" empty_Storage (sample_payload 200000)).
  - apply sample_payload_valid. lia.
  - reflexivity.
  - reflexivity.
Defined.

(** ** The order on strings *)

Module StringOrder.

Lemma ascii_compare_refl (a : ascii) : Ascii.compare a a = Eq.
Proof. apply N.compare_refl. Qed.

Lemma ascii_compare_lt_trans (a b c : ascii) :
  Ascii.compare a b = Lt → Ascii.compare b c = Lt → Ascii.compare a c = Lt.
Proof. unfold Ascii.compare. rewrite !N.compare_lt_iff. lia. Qed.

Lemma compare_refl (s : string) : String.compare s s = Eq.
Proof. induction s as [| a s IH]; cbn; [done |]. by rewrite ascii_compare_refl. Qed.

Lemma compare_lt_trans (s1 s2 s3 : string) :
  String.compare s1 s2 = Lt → String.compare s2 s3 = Lt → String.compare s1 s3 = Lt.
Proof.
  revert s2 s3. induction s1 as [| a s1 IH]; intros [| b s2] [| c s3]; cbn; try done.
  destruct (Ascii.compare a b) eqn:Eab; try done;
    destruct (Ascii.compare b c) eqn:Ebc; try done; intros H12 H23.
  - apply Ascii.compare_eq_iff in Eab as ->, Ebc as ->.
    rewrite ascii_compare_refl. by eapply IH.
  - apply Ascii.compare_eq_iff in Eab as ->. by rewrite Ebc.
  - apply Ascii.compare_eq_iff in Ebc as <-. by rewrite Eab.
  - by rewrite (ascii_compare_lt_trans a b c Eab Ebc).
Qed.

Lemma ltb_irrefl (s : string) : String.ltb s s = false.
Proof. unfold String.ltb. by rewrite compare_refl. Qed.

Lemma ltb_leb (s1 s2 : string) : String.ltb s1 s2 = true → String.leb s1 s2 = true.
Proof. unfold String.ltb, String.leb. by destruct (String.compare s1 s2). Qed.

Lemma not_ltb_leb (s1 s2 : string) : String.ltb s1 s2 = false → String.leb s2 s1 = true.
Proof.
  unfold String.ltb, String.leb. rewrite (String.compare_antisym s2 s1).
  by destruct (String.compare s1 s2).
Qed.

Lemma leb_trans (s1 s2 s3 : string) :
  String.leb s1 s2 = true → String.leb s2 s3 = true → String.leb s1 s3 = true.
Proof.
  unfold String.leb.
  destruct (String.compare s1 s2) eqn:E12; [| | done];
    destruct (String.compare s2 s3) eqn:E23; try done; intros _ _.
  - apply String.compare_eq_iff in E12 as ->. by rewrite E23.
  - apply String.compare_eq_iff in E12 as ->. by rewrite E23.
  - apply String.compare_eq_iff in E23 as <-. by rewrite E12.
  - by rewrite (compare_lt_trans s1 s2 s3 E12 E23).
Qed.

End StringOrder.

(** ** The stable sort *)

Section SortFacts.
Context {A : Type} (key : A → string).

Lemma sort_insert_perm (x : A) (l : list A) : sort_insert key x l ≡ₚ x :: l.
Proof.
  induction l as [| y l IH]; cbn; [done |].
  destruct (String.ltb (key y) (key x)); [| done].
  rewrite IH. apply Permutation_swap.
Qed.

Lemma sort_by_perm (l : list A) : sort_by key l ≡ₚ l.
Proof.
  induction l as [| x l IH]; cbn; [done |].
  by rewrite sort_insert_perm, IH.
Qed.

Lemma sort_insert_sorted (x : A) (l : list A) :
  StronglySorted (key_le key) l → StronglySorted (key_le key) (sort_insert key x l).
Proof.
  induction 1 as [| y l Hs IH Hy]; cbn.
  - repeat constructor.
  - destruct (String.ltb (key y) (key x)) eqn:E.
    + constructor; [done |].
      rewrite sort_insert_perm. constructor; [| done].
      by apply StringOrder.ltb_leb.
    + apply StringOrder.not_ltb_leb in E.
      constructor; [by constructor |].
      constructor; [done |].
      eapply Forall_impl; [exact Hy |].
      intros z Hz. unfold key_le in *. by eapply StringOrder.leb_trans.
Qed.

Lemma sort_by_sorted (l : list A) : StronglySorted (key_le key) (sort_by key l).
Proof.
  induction l as [| x l IH]; cbn; [constructor |]. by apply sort_insert_sorted.
Qed.

(** Stability: elements with the same key keep their order. *)
Lemma sort_insert_stable (t : string) (x : A) (l : list A) :
  filter (λ y, key y = t) (sort_insert key x l) = filter (λ y, key y = t) (x :: l).
Proof.
  induction l as [| y l IH]; cbn; [done |].
  destruct (String.ltb (key y) (key x)) eqn:E; [| done].
  rewrite filter_cons, IH, !filter_cons.
  destruct (decide (key y = t)) as [Hy |], (decide (key x = t)) as [Hx |]; try done.
  rewrite Hy, Hx, StringOrder.ltb_irrefl in E. done.
Qed.

Lemma sort_by_stable (t : string) (l : list A) :
  filter (λ y, key y = t) (sort_by key l) = filter (λ y, key y = t) l.
Proof.
  induction l as [| x l IH]; cbn; [done |].
  by rewrite sort_insert_stable, !filter_cons, IH.
Qed.

End SortFacts.

Lemma sort_by_fmap {A B : Type} (f : A → B) (key : B → string) (l : list A) :
  sort_by key (f <$> l) = f <$> sort_by (key ∘ f) l.
Proof.
  assert (∀ x l, sort_insert key (f x) (f <$> l) = f <$> sort_insert (key ∘ f) x l) as Hins.
  { intros x l0. induction l0 as [| y l0 IH]; cbn; [done |].
    destruct (String.ltb (key (f y)) (key (f x))); cbn; [by rewrite IH | done]. }
  induction l as [| x l IH]; cbn; [done |]. by rewrite IH, Hins.
Qed.

(** ** Listing by seller *)

Lemma createdAt_key_asdict (item : Item) : createdAt_key (asdict_Item item) = createdAt item.
Proof. reflexivity. Qed.

(** C5: for every store and every seller identifier within the range, the
    listing is answered 200 with exactly the items of the store whose
    [sellerId] equals it, in ascending order of [createdAt], items with equal
    [createdAt] staying in the order of the store, which is the order of
    creation; when no item matches, the list is empty. *)
Theorem list_by_seller_sorted_stable (lib : PyLib) (st : Storage) (s : string) (n : Z) :
  int_of_str s = Some n →
  111111 ≤ n ≤ 999999 →
  ∃ listing : list Item,
    _handle_list_items (Some s) st = (st, Ok (JsonResponse 200 (items_body listing)))
    ∧ listing ≡ₚ filter (seller_matches n) (dict_values (items st))
    ∧ StronglySorted (key_le createdAt) listing
    ∧ (∀ t, filter (λ item, createdAt item = t) listing
            = filter (λ item, createdAt item = t)
                (filter (seller_matches n) (dict_values (items st))))
    ∧ (filter (seller_matches n) (dict_values (items st)) = [] → listing = []).
Proof.
  intros Hs Hn.
  exists (sort_by createdAt (filter (seller_matches n) (dict_values (items st)))).
  split; [| split; [| split; [| split]]].
  - unfold _handle_list_items. rewrite Hs.
    assert ((111111 <=? n) && (n <=? 999999) = true) as ->.
    { apply andb_true_iff. rewrite !Z.leb_le. lia. }
    unfold mbind, handler_bind, storage, _json_response, mret, handler_ret, items_body.
    cbn [negb]. rewrite sort_by_fmap. reflexivity.
  - apply sort_by_perm.
  - apply sort_by_sorted.
  - intros t. apply sort_by_stable.
  - by intros ->.
Qed.

Example list_example_store :
  _handle_list_items (H := example_lib JNull) (Some "200000") example_store
  = (example_store,
     Ok (JsonResponse 200
           (items_body [example_item "3" 200000 "2024-01-01T00:00:01+00:00";
                        example_item "1" 200000 "2024-01-01T00:00:02+00:00";
                        example_item "4" 200000 "2024-01-01T00:00:02+00:00"]))).
Proof. reflexivity. Qed.

Lemma list_by_seller_sorted_stable_witness :
  ∃ listing : list Item,
    _handle_list_items (H := example_lib JNull) (Some "200000") example_store
    = (example_store, Ok (JsonResponse 200 (items_body listing)))
    ∧ listing ≡ₚ filter (seller_matches 200000) (dict_values (items example_store))
    ∧ StronglySorted (key_le createdAt) listing
    ∧ (∀ t, filter (λ item, createdAt item = t) listing
            = filter (λ item, createdAt item = t)
                (filter (seller_matches 200000) (dict_values (items example_store))))
    ∧ (filter (seller_matches 200000) (dict_values (items example_store)) = []
       → listing = []).
Proof.
  apply (list_by_seller_sorted_stable (example_lib JNull) example_store "200000" 200000).
  - reflexivity.
  - lia.
Defined.

(** ** One request at a time *)

Lemma created_id_item_body (item : Item) :
  created_id (Ok (JsonResponse 201 (item_body item))) = Some (id item).
Proof. reflexivity. Qed.

Lemma created_id_other_status (r : Response) :
  status_of r ≠ 201 → created_id (Ok r) = None.
Proof.
  destruct r as [status body |]; [| done]. cbn. intros Hs.
  by apply Z.eqb_neq in Hs as ->.
Qed.

Lemma created_ids_cons (r : result Response) (rs : list (result Response)) :
  created_ids (r :: rs)
  = match created_id r with
    | Some item_id => item_id :: created_ids rs
    | None => created_ids rs
    end.
Proof. reflexivity. Qed.

Section Step.
Context `{PyLib}.

Lemma stats_cases (item_id : string) (st : Storage) :
  ∃ status body, _handle_stats item_id st = (st, Ok (JsonResponse status body))
                 ∧ (status = 404 ∨ status = 200).
Proof.
  unfold _handle_stats, mbind, handler_bind, storage.
  destruct (stats st !! item_id); eauto 10.
Qed.

Lemma get_item_cases (item_id : string) (st : Storage) :
  ∃ status body, _handle_get_item item_id st = (st, Ok (JsonResponse status body))
                 ∧ (status = 404 ∨ status = 200).
Proof.
  unfold _handle_get_item, mbind, handler_bind, storage.
  destruct (dict_get item_id (items st)); eauto 10.
Qed.

(** A GET answers and leaves the store as it is. *)
Lemma handle_GET_reads (self_path : string) (st : Storage) :
  ∃ r, handle (GET self_path) st = (st, Ok r) ∧ status_of r ≠ 201.
Proof.
  cbn [handle]. unfold do_GET.
  destruct (Str.startswith _ "/api/1/item/").
  { destruct (get_item_cases (Str.last_segment (Str.split "/" (path (urlparse self_path)))) st)
      as (status & body & -> & Hs).
    eexists; split; [done |]. cbn. lia. }
  destruct (Str.startswith _ "/api/1/items").
  { match goal with |- context [_handle_list_items ?s st] =>
      destruct (list_items_cases s st) as (status & body & -> & Hs) end.
    eexists; split; [done |]. cbn. lia. }
  destruct (Str.startswith _ "/api/1/statistics/").
  { destruct (stats_cases (Str.last_segment (Str.split "/" (path (urlparse self_path)))) st)
      as (status & body & -> & Hs).
    eexists; split; [done |]. cbn. lia. }
  eexists; split; [done |]. done.
Qed.

(** Every request either creates one item, with the next identifier, and is
    answered 201, or leaves the store as it is and is not answered 201. *)
Lemma handle_step (req : Request) (st : Storage) :
  (∃ d now,
      let item := new_Item (Str.of_int (counter st + 1)) d now in
      object_errors d = []
      ∧ handle req st = (store_Item item st, Ok (JsonResponse 201 (item_body item))))
  ∨ (∃ r, handle req st = (st, r) ∧ ∀ resp, r = Ok resp → status_of resp ≠ 201).
Proof.
  destruct req as [self_path raw now | self_path].
  - cbn [handle]. unfold do_POST.
    destruct (String.eqb _ _); [| right; eexists; split; [done |]; by intros ? [= <-]].
    destruct (create_item_cases raw now st)
      as [[e ->] | [(errors & Hne & ->) | (d & _ & Hd & ->)]].
    + right. eexists; split; [done |]. done.
    + right. eexists; split; [done |]. by intros ? [= <-].
    + left. by exists d, now.
  - right. destruct (handle_GET_reads self_path st) as (r & -> & Hr).
    eexists. split; [done |]. by intros ? [= <-].
Qed.

Lemma created_id_not_201 (r : result Response) :
  (∀ resp, r = Ok resp → status_of resp ≠ 201) → created_id r = None.
Proof.
  destruct r as [resp | e]; [| done]. intros Hr. by apply created_id_other_status, Hr.
Qed.

Lemma serve_cons (req : Request) (reqs : list Request) (st : Storage) :
  serve (req :: reqs) st
  = ((serve reqs (handle req st).1).1, (handle req st).2 :: (serve reqs (handle req st).1).2).
Proof.
  cbn [serve]. destruct (handle req st) as [st1 r]. cbn.
  by destruct (serve reqs st1).
Qed.

(** The identifiers of a run that starts at [st] are the numerals that follow
    the counter of [st]. *)
Lemma serve_created_ids (reqs : list Request) (st : Storage) :
  created_ids (serve reqs st).2
  = Str.of_int <$> seqZ (counter st + 1) (Z.of_nat (length (created_ids (serve reqs st).2)))
  ∧ counter (serve reqs st).1
    = counter st + Z.of_nat (length (created_ids (serve reqs st).2)).
Proof.
  revert st. induction reqs as [| req reqs IH]; intros st.
  - cbn. split; [done | lia].
  - rewrite serve_cons. cbn [fst snd]. rewrite created_ids_cons.
    destruct (handle_step req st) as [(d & now & _ & E) | (r & E & Hr)]; cbv zeta in E;
      rewrite E; cbn [fst snd];
      [rewrite created_id_item_body | rewrite (created_id_not_201 r Hr)].
    + destruct (IH (store_Item (new_Item (Str.of_int (counter st + 1)) d now) st))
        as [IH1 IH2].
      cbn [counter store_Item] in IH1, IH2. split.
      * cbn [length]. rewrite seqZ_cons by lia. rewrite fmap_cons.
        cbn [id new_Item]. f_equal.
        rewrite IH1 at 1. do 2 f_equal; lia.
      * cbn [length]. rewrite IH2. lia.
    + exact (IH st).
Qed.

End Step.

(** ** Identifiers *)

(** C4: the identifiers of the items created in a run of the service, taken
    in the order of creation, are the decimal numerals of 1, 2, 3, ...: no
    gap, no repeat, and an earlier item has a different identifier of smaller
    numeric value than a later one. *)
Theorem identifiers_are_consecutive (lib : PyLib) (reqs : list Request) :
  let ids := created_ids (serve reqs empty_Storage).2 in
  ids = Str.of_int <$> seqZ 1 (Z.of_nat (length ids))
  ∧ NoDup ids
  ∧ ∀ (i j : nat) (a b : string),
      (i < j)%nat → ids !! i = Some a → ids !! j = Some b →
      a ≠ b ∧ ∃ x y, Str.to_int a = Some x ∧ Str.to_int b = Some y ∧ x < y.
Proof.
  intros ids.
  destruct (serve_created_ids reqs empty_Storage) as [Hids _].
  fold ids in Hids. cbn [counter empty_Storage] in Hids.
  change (0 + 1) with 1 in Hids.
  assert (∀ i a, ids !! i = Some a → a = Str.of_int (1 + Z.of_nat i)) as Hat.
  { intros i a Hi. rewrite Hids, list_lookup_fmap in Hi.
    destruct (seqZ 1 _ !! i) as [x |] eqn:Ex; [| done].
    apply lookup_seqZ in Ex as [-> _]. by injection Hi as <-. }
  split; [exact Hids |]. split.
  - rewrite Hids. apply NoDup_fmap_2; [| apply NoDup_seqZ].
    intros x y. apply StrFacts.of_int_inj.
  - intros i j a b Hij Ha Hb.
    apply Hat in Ha as ->, Hb as ->. split.
    + intros E%StrFacts.of_int_inj. lia.
    + exists (1 + Z.of_nat i), (1 + Z.of_nat j).
      rewrite !StrFacts.to_int_of_int. repeat split; lia.
Qed.

Example identifiers_of_a_run :
  created_ids
    (serve (H := example_lib (JObj (sample_payload 200000)))
       [POST "/api/1/item" some_bytes "2024-01-01T00:00:00+00:00";
        GET "/api/1/item/1";
        POST "/api/1/nothing" some_bytes "2024-01-01T00:00:01+00:00";
        POST "/api/1/item/" some_bytes "2024-01-01T00:00:02+00:00";
        GET "/api/1/items?sellerId=200000";
        POST "/api/1/item" some_bytes "2024-01-01T00:00:03+00:00"]
       empty_Storage).2
  = ["1"; "2"; "3"].
Proof. vm_compute. reflexivity. Qed.

Lemma identifiers_are_consecutive_witness :
  let ids := ["1"; "2"; "3"] in
  ids = Str.of_int <$> seqZ 1 3
  ∧ NoDup ids
  ∧ ∀ (i j : nat) (a b : string),
      (i < j)%nat → ids !! i = Some a → ids !! j = Some b →
      a ≠ b ∧ ∃ x y, Str.to_int a = Some x ∧ Str.to_int b = Some y ∧ x < y.
Proof.
  exact (identifiers_are_consecutive (example_lib (JObj (sample_payload 200000)))
           [POST "/api/1/item" some_bytes "2024-01-01T00:00:00+00:00";
            GET "/api/1/item/1";
            POST "/api/1/nothing" some_bytes "2024-01-01T00:00:01+00:00";
            POST "/api/1/item/" some_bytes "2024-01-01T00:00:02+00:00";
            GET "/api/1/items?sellerId=200000";
            POST "/api/1/item" some_bytes "2024-01-01T00:00:03+00:00"]).
Defined.

(** ** Statistics *)

Lemma store_Item_consistent (item : Item) (st : Storage) :
  stats_consistent st → stats_consistent (store_Item item st).
Proof.
  intros [Hpair Hitem Hstats]. split; cbn [items stats store_Item].
  - intros k. destruct (decide (id item = k)) as [<- | Hne].
    + rewrite dict_get_set_eq, lookup_insert_eq. split; eauto.
    + rewrite dict_get_set_ne, lookup_insert_ne by done. apply Hpair.
  - intros k it. destruct (decide (id item = k)) as [<- | Hne].
    + rewrite dict_get_set_eq. by intros [= <-].
    + rewrite dict_get_set_ne by done. apply Hitem.
  - intros k s. destruct (decide (id item = k)) as [<- | Hne].
    + rewrite lookup_insert_eq. by intros [= <-].
    + rewrite lookup_insert_ne by done. apply Hstats.
Qed.

Lemma empty_Storage_consistent : stats_consistent empty_Storage.
Proof.
  split; cbn.
  - intros k. rewrite lookup_empty. split; intros [? [=]].
  - done.
  - intros k s. by rewrite lookup_empty.
Qed.

Section Statistics.
Context `{PyLib}.

Lemma handle_consistent (req : Request) (st : Storage) :
  stats_consistent st → stats_consistent (handle req st).1.
Proof.
  intros Hst.
  destruct (handle_step req st) as [(d & now & _ & E) | (r & E & _)]; cbv zeta in E;
    rewrite E; cbn [fst]; [by apply store_Item_consistent | done].
Qed.

Lemma serve_consistent (reqs : list Request) (st : Storage) :
  stats_consistent st → stats_consistent (serve reqs st).1.
Proof.
  revert st. induction reqs as [| req reqs IH]; intros st Hst; [done |].
  rewrite serve_cons. cbn [fst]. by apply IH, handle_consistent.
Qed.

Lemma stats_found (item_id : string) (s : Stats) (st : Storage) :
  stats st !! item_id = Some s →
  _handle_stats item_id st = (st, Ok (JsonResponse 200 (statistics_body s))).
Proof. intros E. unfold _handle_stats, mbind, handler_bind, storage. by rewrite E. Qed.

End Statistics.

(** C6: in every store that the service reaches, items and statistics go by
    pairs under the same identifier, and every request keeps it so; a request
    changes the items and the statistics only when it is a successful create,
    which adds one item and one record of statistics under one identifier;
    right after a successful create the statistics of the new item are there,
    with views, contacts and favorites at 0. *)
Theorem statistics_paired_with_items (lib : PyLib) :
  stats_consistent empty_Storage
  ∧ (∀ req st, stats_consistent st → stats_consistent (handle req st).1)
  ∧ (∀ reqs, stats_consistent (serve reqs empty_Storage).1)
  ∧ (∀ req st,
       (items (handle req st).1 = items st ∧ stats (handle req st).1 = stats st)
       ∨ ∃ item,
           (handle req st).2 = Ok (JsonResponse 201 (item_body item))
           ∧ items (handle req st).1 = dict_set (id item) item (items st)
           ∧ stats (handle req st).1 = <[id item := new_Stats (id item)]> (stats st))
  ∧ (∀ req st st' body,
       handle req st = (st', Ok (JsonResponse 201 body)) →
       ∃ item,
         body = item_body item
         ∧ dict_get (id item) (items st') = Some item
         ∧ stats st' !! id item
           = Some {| itemId := id item; views := 0; contacts := 0; favorites := 0 |}
         ∧ _handle_stats (id item) st'
           = (st', Ok (JsonResponse 200
                         (JObj [("statistics",
                                 JObj [("itemId", JStr (id item)); ("views", JInt 0);
                                       ("contacts", JInt 0); ("favorites", JInt 0)])])))).
Proof.
  split; [apply empty_Storage_consistent |].
  split; [apply @handle_consistent |].
  split; [intros reqs; apply serve_consistent, empty_Storage_consistent |].
  split.
  - intros req st.
    destruct (handle_step req st) as [(d & now & _ & E) | (r & E & _)]; cbv zeta in E;
      rewrite E; cbn [fst snd]; [right | by left].
    eexists. split; [reflexivity |]. done.
  - intros req st st' body E.
    destruct (handle_step req st) as [(d & now & _ & E') | (r & E' & Hr)]; cbv zeta in E';
      rewrite E' in E.
    + injection E as <- <-. eexists. split; [reflexivity |].
      assert (stats (store_Item (new_Item (Str.of_int (counter st + 1)) d now) st)
                !! id (new_Item (Str.of_int (counter st + 1)) d now)
              = Some (new_Stats (id (new_Item (Str.of_int (counter st + 1)) d now)))) as Hs
        by apply lookup_insert_eq.
      split; [apply dict_get_set_eq |]. split; [exact Hs |].
      exact (stats_found _ _ _ Hs).
    + injection E as <- ->. by destruct (Hr _ eq_refl).
Qed.

Lemma statistics_paired_with_items_witness :
  stats_consistent
    (handle (H := example_lib (JObj (sample_payload 200000)))
       (POST "/api/1/item" some_bytes "2024-01-01T00:00:00+00:00") empty_Storage).1
  ∧ ∃ item,
      dict_get (id item)
        (items (handle (H := example_lib (JObj (sample_payload 200000)))
                  (POST "/api/1/item" some_bytes "2024-01-01T00:00:00+00:00")
                  empty_Storage).1)
      = Some item
      ∧ stats (handle (H := example_lib (JObj (sample_payload 200000)))
                 (POST "/api/1/item" some_bytes "2024-01-01T00:00:00+00:00")
                 empty_Storage).1 !! id item
        = Some {| itemId := id item; views := 0; contacts := 0; favorites := 0 |}.
Proof.
  destruct (statistics_paired_with_items (example_lib (JObj (sample_payload 200000))))
    as (Hempty & Hstep & _ & _ & Hcreate).
  split; [exact (Hstep _ _ Hempty) |].
  destruct (Hcreate (POST "/api/1/item" some_bytes "2024-01-01T00:00:00+00:00")
              empty_Storage _ _ eq_refl) as (item & _ & Hitem & Hstats & _).
  exists item. split; [exact Hitem | exact Hstats].
Defined.

(** * Further properties *)

(** ** What the validator lets through *)

Lemma text_rule_passes (v : json) (bound : Z) :
  negb (isinstance_str v) || str_is_empty v = false →
  isinstance_str v && (bound <? str_len v) = false →
  ∃ s, v = JStr s ∧ (0 < String.length s)%nat ∧ Z.of_nat (String.length s) ≤ bound.
Proof.
  destruct v as [| | | | s | |]; try discriminate. intros H1 H2.
  exists s. split; [done |]. cbn in H2. apply Z.ltb_ge in H2.
  split; [| done]. destruct s; [discriminate H1 | cbn; lia].
Qed.

Lemma price_rule_passes (v : json) :
  negb (isinstance_int v) || (int_value v <=? 0) = false →
  (∃ n, v = JInt n ∧ 0 < n) ∨ v = JBool true.
Proof.
  destruct v as [| [] | n | | | |]; try discriminate; intros Hv.
  - by right.
  - left. exists n. split; [done |]. cbn in Hv. apply Z.leb_gt in Hv. lia.
Qed.

Lemma sellerId_rule_passes (v : json) :
  negb (isinstance_int v)
  || negb ((111111 <=? int_value v) && (int_value v <=? 999999)) = false →
  ∃ n, v = JInt n ∧ 111111 ≤ n ≤ 999999.
Proof.
  destruct v as [| [] | n | | | |]; try discriminate; intros Hv.
  exists n. split; [done |]. cbn in Hv.
  apply negb_false_iff, andb_true_iff in Hv as [H1%Z.leb_le H2%Z.leb_le]. lia.
Qed.

Lemma accepted_payload_no_errors (d : list (string * json)) :
  AcceptedPayload d → object_errors d = [].
Proof.
  intros [(t & Ht & Ht1 & Ht2) (de & Hde & Hd1 & Hd2) Hprice (s & Hs & Hs1 & Hs2)].
  unfold object_errors; cbv zeta. unfold dict_mem. rewrite Ht, Hde, Hs.
  assert (str_is_empty (JStr t) = false) as -> by (destruct t; [cbn in Ht1; lia | done]).
  assert (str_is_empty (JStr de) = false) as -> by (destruct de; [cbn in Hd1; lia | done]).
  cbn [negb isinstance_str isinstance_int int_value str_len orb andb].
  assert ((255 <? Z.of_nat (String.length t)) = false) as -> by (apply Z.ltb_ge; lia).
  assert ((2000 <? Z.of_nat (String.length de)) = false) as -> by (apply Z.ltb_ge; lia).
  assert ((111111 <=? s) = true) as -> by (apply Z.leb_le; lia).
  assert ((s <=? 999999) = true) as -> by (apply Z.leb_le; lia).
  destruct Hprice as [(p & -> & Hp) | ->]; cbn [negb isinstance_int int_value orb].
  - assert ((p <=? 0) = false) as -> by (apply Z.leb_gt; lia). reflexivity.
  - reflexivity.
Qed.

Lemma no_errors_accepted_payload (d : list (string * json)) :
  object_errors d = [] → AcceptedPayload d.
Proof.
  intros E.
  destruct (object_errors_nil_fields d E) as (t & de & p & s & Ht & Hde & Hp & Hs).
  revert E. unfold object_errors; cbv zeta. rewrite !append_if_nil.
  rewrite Ht, Hde, Hp, Hs.
  intros E. repeat match goal with E : _ ∧ _ |- _ => destruct E end.
  destruct (text_rule_passes t 255) as (t' & -> & ? & ?); [done | done |].
  destruct (text_rule_passes de 2000) as (de' & -> & ? & ?); [done | done |].
  destruct (sellerId_rule_passes s) as (n & -> & ?); [done |].
  split.
  - exists t'. split; [done | lia].
  - exists de'. split; [done | lia].
  - destruct (price_rule_passes p) as [(n' & -> & ?) | ->]; [done | left; eauto | by right].
  - eauto.
Qed.

(** X1: the validator returns the empty list exactly for the objects whose
    title and description are non-empty strings within their bounds, whose
    sellerId is an integer of the range, and whose price is a positive
    integer or the boolean [True]. *)
Theorem validate_accepts_exactly (payload : json) :
  _validate_item payload = Ok [] ↔ ∃ d, payload = JObj d ∧ AcceptedPayload d.
Proof.
  split.
  - intros E. apply validate_item_Ok_inv in E as [[_ [=]] | (d & -> & E)].
    exists d. split; [done |]. by apply no_errors_accepted_payload.
  - intros (d & -> & Hd). rewrite validate_item_object.
    by rewrite (accepted_payload_no_errors d Hd).
Qed.

Lemma validate_accepts_exactly_witness :
  _validate_item (JObj (dict_set "price" (JBool true) (sample_payload 200000))) = Ok [].
Proof.
  apply validate_accepts_exactly. eexists. split; [reflexivity |].
  split; cbn.
  - eexists; split; [reflexivity | cbn; lia].
  - eexists; split; [reflexivity | cbn; lia].
  - by right.
  - eexists; split; [reflexivity | lia].
Defined.

Example price_true_is_accepted :
  _validate_item (JObj (dict_set "price" (JBool true) (sample_payload 200000))) = Ok []
  ∧ _validate_item (JObj (dict_set "sellerId" (JBool true) (sample_payload 200000)))
    = Ok ["sellerId must be int in range 111111-999999"]
  ∧ _validate_item (JObj (dict_set "price" (JBool false) (sample_payload 200000)))
    = Ok ["price must be positive integer"].
Proof. repeat split. Qed.

(** ** Oversized text fields *)

(** X2: a payload whose other fields are valid, with a title of more than
    255 characters and a description of more than 2000, is reported with
    exactly two violations, the title's before the description's. *)
Theorem long_payload_two_violations (d : list (string * json)) (t de : string) :
  ValidItemPayload d →
  (255 < String.length t)%nat →
  (2000 < String.length de)%nat →
  _validate_item (JObj (long_payload d t de))
  = Ok ["title too long"; "description too long"].
Proof.
  intros [_ _ (p & Hp & Hp1) (s & Hs & Hs1 & Hs2)] Ht Hde.
  rewrite validate_item_object. unfold object_errors, long_payload; cbv zeta.
  unfold dict_mem.
  rewrite !dict_get_set_eq, ?dict_get_set_ne by discriminate.
  rewrite !dict_get_set_eq, ?dict_get_set_ne by discriminate.
  rewrite Hp, Hs.
  assert (str_is_empty (JStr t) = false) as -> by (destruct t; [cbn in Ht; lia | done]).
  assert (str_is_empty (JStr de) = false) as -> by (destruct de; [cbn in Hde; lia | done]).
  cbn [negb isinstance_str isinstance_int int_value str_len orb andb].
  assert ((255 <? Z.of_nat (String.length t)) = true) as -> by (apply Z.ltb_lt; lia).
  assert ((2000 <? Z.of_nat (String.length de)) = true) as -> by (apply Z.ltb_lt; lia).
  assert ((p <=? 0) = false) as -> by (apply Z.leb_gt; lia).
  assert ((111111 <=? s) = true) as -> by (apply Z.leb_le; lia).
  assert ((s <=? 999999) = true) as -> by (apply Z.leb_le; lia).
  reflexivity.
Qed.

Lemma long_payload_two_violations_witness :
  _validate_item (JObj (long_payload (sample_payload 200000)
                          (Str.replicate 260 "a") (Str.replicate 2100 "b")))
  = Ok ["title too long"; "description too long"].
Proof.
  apply long_payload_two_violations.
  - apply sample_payload_valid. lia.
  - vm_compute. lia.
  - vm_compute. lia.
Defined.

(** ** Requests that do not create *)

(** X3: a request that is not answered 201 leaves the store, counter
    included, exactly as it was: a rejected create, a create that raises, a
    POST to another path and every GET consume no identifier and store
    nothing. *)
Theorem only_created_changes_store (lib : PyLib) (req : Request) (st : Storage) :
  (∀ body, (handle req st).2 ≠ Ok (JsonResponse 201 body)) →
  (handle req st).1 = st.
Proof.
  intros Hno.
  destruct (handle_step req st) as [(d & now & _ & E) | (r & E & _)]; cbv zeta in E.
  - rewrite E in Hno. cbn in Hno. by destruct (Hno _ eq_refl).
  - by rewrite E.
Qed.

Lemma only_created_changes_store_witness :
  (handle (H := example_lib (JObj (sample_payload 100)))
     (POST "/api/1/item" some_bytes "2024-01-01T00:00:00+00:00") example_store).1
  = example_store.
Proof.
  apply (only_created_changes_store (example_lib (JObj (sample_payload 100)))).
  intros body. vm_compute. discriminate.
Defined.

Section Statuses.
Context `{PyLib}.



End Statuses.



(** ** Trailing slashes *)

Module RstripFacts.

(** [s] is [s.rstrip(c)] followed by a run of [c]. *)
Lemma rstrip_decompose (c : ascii) (s : string) :
  ∃ n, s = Str.rstrip c s +:+ Str.replicate n c.
Proof.
  induction s as [| a s [n IH]]; [by exists 0%nat |].
  cbn [Str.rstrip]. destruct (Str.rstrip c s) as [| b r] eqn:E.
  - rewrite StrFacts.append_nil_l in IH. destruct (Ascii.eqb_spec a c) as [-> | Hne].
    + exists (S n). by rewrite IH.
    + exists n. by rewrite IH.
  - exists n. rewrite StrFacts.append_cons. by rewrite <- IH.
Qed.

Lemma ends_with_cons (c a : ascii) (s : string) :
  s ≠ EmptyString → ends_with c (String a s) → ends_with c s.
Proof.
  intros Hs [p E]. destruct p as [| b p].
  - rewrite StrFacts.append_nil_l in E. injection E as _ E. by destruct Hs.
  - rewrite StrFacts.append_cons in E. injection E as _ E. by exists p.
Qed.

(** [s.rstrip(c)] does not end with [c]. *)
Lemma rstrip_not_ends (c : ascii) (s : string) : ¬ ends_with c (Str.rstrip c s).
Proof.
  induction s as [| a s IH]; cbn [Str.rstrip].
  - intros [p E]. destruct p; discriminate E.
  - destruct (Str.rstrip c s) as [| b r] eqn:E.
    + destruct (Ascii.eqb_spec a c) as [-> | Hne].
      * intros [p Ep]. destruct p; discriminate Ep.
      * intros [p Ep]. destruct p as [| b p].
        -- rewrite StrFacts.append_nil_l in Ep. by injection Ep as ->.
        -- rewrite StrFacts.append_cons in Ep. injection Ep as _ Ep.
           destruct p; discriminate Ep.
    + intros Hends. apply IH. by apply (ends_with_cons c a).
Qed.

Lemma snoc_decompose (s : string) :
  s = EmptyString ∨ ∃ q a, s = q +:+ String a EmptyString.
Proof.
  induction s as [| b s [-> | (q & a & ->)]]; [by left | |]; right.
  - by exists EmptyString, b.
  - by exists (String b q), a.
Qed.

(** [s.rstrip(c) == p], for [p] that does not end with [c], says that [s] is
    [p] followed by a run of [c]. *)
Lemma rstrip_eq_iff (c : ascii) (s p : string) :
  ¬ ends_with c p →
  Str.rstrip c s = p ↔ ∃ n, s = p +:+ Str.replicate n c.
Proof.
  intros Hp. split.
  - intros <-. apply rstrip_decompose.
  - intros [n ->]. destruct (snoc_decompose p) as [-> | (q & a & ->)].
    + rewrite StrFacts.append_nil_l. apply StrFacts.rstrip_replicate.
    + apply StrFacts.rstrip_app_replicate. intros ->. apply Hp. by exists q.
Qed.

End RstripFacts.

(** ** The POST route *)

Lemma item_path_no_slash_end : ¬ ends_with "/" "/api/1/item".
Proof.
  intros [p E].
  do 11 (destruct p as [| ? p]; [discriminate E |];
         rewrite StrFacts.append_cons in E; injection E as _ E).
  destruct p; discriminate E.
Qed.

(** X5: a POST is taken as a create exactly when its path, query string
    included, is [/api/1/item] followed by slashes only; every other POST is
    answered 404 and leaves the store as it is. *)
Theorem post_route_exact (lib : PyLib) (self_path : string) (raw : list Byte.byte)
    (now : string) :
  ((∃ n, self_path = "/api/1/item" +:+ Str.replicate n "/") →
   handle (POST self_path raw now) = _handle_create_item raw now)
  ∧ (¬ (∃ n, self_path = "/api/1/item" +:+ Str.replicate n "/") →
     ∀ st, handle (POST self_path raw now) st = (st, Ok (ErrorResponse 404 "Not Found"))).
Proof.
  pose proof (RstripFacts.rstrip_eq_iff "/" self_path "/api/1/item" item_path_no_slash_end)
    as Hiff.
  cbn [handle]. unfold do_POST. split.
  - intros Hn. apply Hiff in Hn. by rewrite Hn.
  - intros Hn st. destruct (String.eqb_spec (Str.rstrip "/" self_path) "/api/1/item") as [E |];
      [| done].
    by apply Hiff in E.
Qed.

Lemma post_route_exact_witness :
  handle (H := example_lib (JObj (sample_payload 200000)))
    (POST "/api/1/item?x=1" some_bytes "2024-01-01T00:00:00+00:00") empty_Storage
  = (empty_Storage, Ok (ErrorResponse 404 "Not Found")).
Proof.
  apply (proj2 (post_route_exact (example_lib (JObj (sample_payload 200000)))
                  "/api/1/item?x=1" some_bytes "2024-01-01T00:00:00+00:00")).
  intros [n E]. destruct n as [| n]; discriminate E.
Defined.

(** ** The client's base URL *)

(** X6: the base URL of the client never ends with a slash.  A non-empty
    [base_url] argument is used, whatever the environment holds, with its
    trailing slashes removed; when the argument and the environment variable
    are both absent or empty, the base URL is [http://localhost:8000]. *)
Theorem client_base_url (base_url environ : option string) :
  ¬ ends_with "/" (AdApiClient_base_url base_url environ)
  ∧ (∀ a s, base_url = Some (String a s) →
       ∃ n, String a s = AdApiClient_base_url base_url environ +:+ Str.replicate n "/")
  ∧ ((base_url = None ∨ base_url = Some EmptyString) →
     (environ = None ∨ environ = Some EmptyString) →
     AdApiClient_base_url base_url environ = "http://localhost:8000").
Proof.
  unfold AdApiClient_base_url. split; [apply RstripFacts.rstrip_not_ends |]. split.
  - intros a s ->. cbn [or_else]. apply RstripFacts.rstrip_decompose.
  - by intros [-> | ->] [-> | ->].
Qed.

Lemma client_base_url_witness :
  (∃ n, "http://host:1//" = AdApiClient_base_url (Some "http://host:1//") (Some "http://env/")
                            +:+ Str.replicate n "/")
  ∧ AdApiClient_base_url (Some "") None = "http://localhost:8000".
Proof.
  split.
  - exact (proj1 (proj2 (client_base_url (Some "http://host:1//") (Some "http://env/")))
             _ _ eq_refl).
  - apply (proj2 (proj2 (client_base_url (Some "") None))); [by right | by left].
Defined.

(** ** The keys of the store *)

Lemma dict_get_None_keys {V : Type} (k : string) (d : list (string * V)) :
  dict_get k d = None ↔ k ∉ d.*1.
Proof.
  induction d as [| [k' v] d IH]; cbn.
  - split; [intros _; apply not_elem_of_nil | done].
  - rewrite not_elem_of_cons. destruct (String.eqb_spec k k') as [-> | Hne].
    + split; [done | by intros [[] _]].
    + rewrite IH. tauto.
Qed.

Lemma dict_set_fresh {V : Type} (k : string) (v : V) (d : list (string * V)) :
  dict_get k d = None → dict_set k v d = d ++ [(k, v)].
Proof.
  induction d as [| [k' v'] d IH]; cbn; [done |].
  destruct (String.eqb k k'); [done |]. intros E. by rewrite IH.
Qed.

Lemma dict_get_app_Some {V : Type} (k : string) (v : V) (d d' : list (string * V)) :
  dict_get k d = Some v → dict_get k (d ++ d') = Some v.
Proof.
  induction d as [| [k' v'] d IH]; cbn; [done |].
  destruct (String.eqb k k'); [done | apply IH].
Qed.

Lemma next_key_fresh (st : Storage) :
  well_formed st → dict_get (Str.of_int (counter st + 1)) (items st) = None.
Proof.
  intros [Hc Hkeys]. apply dict_get_None_keys. rewrite Hkeys.
  intros (n & E & Hn)%list_elem_of_fmap.
  apply StrFacts.of_int_inj in E as <-. apply elem_of_seqZ in Hn. lia.
Qed.

Lemma store_Item_appends (item : Item) (st : Storage) :
  well_formed st → id item = Str.of_int (counter st + 1) →
  items (store_Item item st) = items st ++ [(id item, item)]
  ∧ well_formed (store_Item item st).
Proof.
  intros Hwf Hid.
  assert (items (store_Item item st) = items st ++ [(id item, item)]) as Happ.
  { cbn [items store_Item]. apply dict_set_fresh. rewrite Hid. by apply next_key_fresh. }
  split; [exact Happ |].
  destruct Hwf as [Hc Hkeys]. split; cbn [counter store_Item]; [lia |].
  change (dict_set (id item) item (items st)) with (items (store_Item item st)).
  rewrite Happ, fmap_app, Hkeys. cbn [fmap list_fmap fst].
  replace (counter st + 1) with (counter st + 1 * 1) at 2 by lia.
  rewrite seqZ_app by lia. rewrite fmap_app. cbn. by rewrite Hid, Z.add_comm.
Qed.

Section Keys.
Context `{PyLib}.

Lemma handle_well_formed (req : Request) (st : Storage) :
  well_formed st →
  well_formed (handle req st).1 ∧ items st `prefix_of` items (handle req st).1.
Proof.
  intros Hwf.
  destruct (handle_step req st) as [(d & now & _ & E) | (r & E & _)]; cbv zeta in E;
    rewrite E; cbn [fst]; [| done].
  destruct (store_Item_appends (new_Item (Str.of_int (counter st + 1)) d now) st Hwf eq_refl)
    as [Happ Hwf'].
  split; [done |]. rewrite Happ. by eexists.
Qed.

Lemma serve_well_formed (reqs : list Request) (st : Storage) :
  well_formed st →
  well_formed (serve reqs st).1 ∧ items st `prefix_of` items (serve reqs st).1.
Proof.
  revert st. induction reqs as [| req reqs IH]; intros st Hwf; [done |].
  rewrite serve_cons. cbn [fst].
  destruct (handle_well_formed req st Hwf) as [Hwf1 Hpre1].
  destruct (IH _ Hwf1) as [Hwf2 Hpre2].
  split; [done |]. by etrans.
Qed.

Lemma serve_app (reqs1 reqs2 : list Request) (st : Storage) :
  (serve (reqs1 ++ reqs2) st).1 = (serve reqs2 (serve reqs1 st).1).1.
Proof.
  revert st. induction reqs1 as [| req reqs1 IH]; intros st; [done |].
  rewrite <- app_comm_cons, !serve_cons. cbn [fst]. apply IH.
Qed.

End Keys.

Lemma empty_Storage_well_formed : well_formed empty_Storage.
Proof. by split. Qed.

(** X7: in every store that the service reaches, the keys of the items are
    the decimal numerals of 1 up to the counter, in the order of creation; so
    the counter is the number of items and no two items share a key. *)
Theorem store_keys_are_numerals (lib : PyLib) (reqs : list Request) :
  let st := (serve reqs empty_Storage).1 in
  (items st).*1 = Str.of_int <$> seqZ 1 (counter st)
  ∧ Z.of_nat (length (items st)) = counter st
  ∧ NoDup (items st).*1.
Proof.
  intros st.
  destruct (serve_well_formed reqs empty_Storage empty_Storage_well_formed)
    as [[Hc Hkeys] _].
  fold st in Hc, Hkeys.
  split; [exact Hkeys |]. split.
  - rewrite <- (length_fmap fst), Hkeys, length_fmap, length_seqZ. lia.
  - rewrite Hkeys. apply NoDup_fmap_2; [| apply NoDup_seqZ].
    intros x y. apply StrFacts.of_int_inj.
Qed.

(** X8: items are never changed, moved or removed: the items after a run
    are the first items after any longer run, in the same order, and an item
    that a get by id found is found unchanged from then on. *)
Theorem items_only_grow (lib : PyLib) (reqs1 reqs2 : list Request) :
  let st1 := (serve reqs1 empty_Storage).1 in
  let st2 := (serve (reqs1 ++ reqs2) empty_Storage).1 in
  items st1 `prefix_of` items st2
  ∧ ∀ item_id item,
      dict_get item_id (items st1) = Some item →
      _handle_get_item item_id st2 = (st2, Ok (JsonResponse 200 (item_body item))).
Proof.
  intros st1 st2.
  destruct (serve_well_formed reqs1 empty_Storage empty_Storage_well_formed) as [Hwf1 _].
  destruct (serve_well_formed reqs2 _ Hwf1) as [_ Hpre].
  rewrite <- serve_app in Hpre. fold st1 st2 in Hpre.
  split; [exact Hpre |].
  intros item_id item Hget. apply get_item_found.
  destruct Hpre as [k ->]. by apply dict_get_app_Some.
Qed.

Lemma items_only_grow_witness :
  let lib := example_lib (JObj (sample_payload 200000)) in
  let reqs1 := [POST "/api/1/item" some_bytes "2024-01-01T00:00:00+00:00"] in
  let reqs2 := [POST "/api/1/item" some_bytes "2024-01-01T00:00:01+00:00"] in
  let item := new_Item "1" (sample_payload 200000) "2024-01-01T00:00:00+00:00" in
  _handle_get_item "1" (serve (H := lib) (reqs1 ++ reqs2) empty_Storage).1
  = ((serve (H := lib) (reqs1 ++ reqs2) empty_Storage).1,
     Ok (JsonResponse 200 (item_body item))).
Proof.
  intros lib reqs1 reqs2 item.
  apply (proj2 (items_only_grow lib reqs1 reqs2)). reflexivity.
Defined.

(** ** Get and statistics by identifier *)

Lemma store_Item_stats_untouched (item : Item) (st : Storage) :
  stats_untouched st → stats_untouched (store_Item item st).
Proof.
  intros Hst k s. cbn [stats store_Item].
  destruct (decide (id item = k)) as [<- | Hne].
  - rewrite lookup_insert_eq. by intros [= <-].
  - rewrite lookup_insert_ne by done. apply Hst.
Qed.

Section ById.
Context `{PyLib}.

Lemma serve_stats_untouched (reqs : list Request) (st : Storage) :
  stats_untouched st → stats_untouched (serve reqs st).1.
Proof.
  revert st. induction reqs as [| req reqs IH]; intros st Hst; [done |].
  rewrite serve_cons. cbn [fst]. apply IH.
  destruct (handle_step req st) as [(d & now & _ & E) | (r & E & _)]; cbv zeta in E;
    rewrite E; cbn [fst]; [by apply store_Item_stats_untouched | done].
Qed.

Lemma stats_missing (item_id : string) (st : Storage) :
  stats st !! item_id = None →
  _handle_stats item_id st = (st, Ok (JsonResponse 404 (error_body "stats not found"))).
Proof. intros E. unfold _handle_stats, mbind, handler_bind, storage. by rewrite E. Qed.

End ById.

(** X9: in every store that the service reaches, a get by id and a get of
    the statistics are answered 200 exactly for the decimal numerals of
    1 up to the counter, and 404 for every other identifier; the statistics
    of an item are always the ones it was created with, all counters 0. *)
Theorem known_identifiers (lib : PyLib) (reqs : list Request) (item_id : string) :
  let st := (serve reqs empty_Storage).1 in
  ((∃ n, 1 ≤ n ≤ counter st ∧ item_id = Str.of_int n) →
   ∃ item, id item = item_id
           ∧ _handle_get_item item_id st = (st, Ok (JsonResponse 200 (item_body item)))
           ∧ _handle_stats item_id st
             = (st, Ok (JsonResponse 200 (statistics_body (new_Stats item_id)))))
  ∧ (¬ (∃ n, 1 ≤ n ≤ counter st ∧ item_id = Str.of_int n) →
     _handle_get_item item_id st
     = (st, Ok (JsonResponse 404 (error_body "item not found")))
     ∧ _handle_stats item_id st
       = (st, Ok (JsonResponse 404 (error_body "stats not found")))).
Proof.
  intros st.
  destruct (serve_well_formed reqs empty_Storage empty_Storage_well_formed)
    as [[Hc Hkeys] _].
  pose proof (serve_consistent reqs empty_Storage empty_Storage_consistent)
    as [Hpair Hitem Hstats].
  assert (stats_untouched (serve reqs empty_Storage).1) as Hun.
  { apply serve_stats_untouched. intros k s. cbn [stats empty_Storage].
    by rewrite lookup_empty. }
  fold st in Hc, Hkeys, Hpair, Hitem, Hstats, Hun.
  assert (item_id ∈ (items st).*1 ↔ ∃ n, 1 ≤ n ≤ counter st ∧ item_id = Str.of_int n)
    as Hin.
  { rewrite Hkeys, list_elem_of_fmap. split.
    - intros (n & -> & Hn%elem_of_seqZ). exists n. split; [lia | done].
    - intros (n & Hn & ->). exists n. split; [done |]. apply elem_of_seqZ. lia. }
  split.
  - intros Hn. apply Hin in Hn.
    destruct (dict_get item_id (items st)) as [item |] eqn:Eitem;
      [| by apply dict_get_None_keys in Eitem].
    destruct (proj1 (Hpair item_id)) as [s Es]; [by rewrite Eitem |].
    rewrite (Hun _ _ Es) in Es.
    exists item. split; [by apply Hitem |].
    split; [by apply get_item_found | by apply stats_found].
  - intros Hn. rewrite <- Hin in Hn. apply dict_get_None_keys in Hn.
    split; [by apply get_item_missing |].
    apply stats_missing. destruct (stats st !! item_id) eqn:Es; [| done].
    destruct (proj2 (Hpair item_id)) as [item Eitem]; [by rewrite Es |]. congruence.
Qed.

Lemma known_identifiers_witness :
  let lib := example_lib (JObj (sample_payload 200000)) in
  let reqs := [POST "/api/1/item" some_bytes "2024-01-01T00:00:00+00:00"] in
  (∃ item, id item = "1"
           ∧ _handle_get_item "1" (serve (H := lib) reqs empty_Storage).1
             = ((serve (H := lib) reqs empty_Storage).1,
                Ok (JsonResponse 200 (item_body item)))
           ∧ _handle_stats "1" (serve (H := lib) reqs empty_Storage).1
             = ((serve (H := lib) reqs empty_Storage).1,
                Ok (JsonResponse 200 (statistics_body (new_Stats "1")))))
  ∧ _handle_get_item "99999" (serve (H := lib) reqs empty_Storage).1
    = ((serve (H := lib) reqs empty_Storage).1,
       Ok (JsonResponse 404 (error_body "item not found"))).
Proof.
  intros lib reqs. split.
  - apply (proj1 (known_identifiers lib reqs "1")). exists 1. by vm_compute.
  - apply (proj2 (known_identifiers lib reqs "99999")).
    intros (n & Hn & E). apply (f_equal Str.to_int) in E.
    rewrite StrFacts.to_int_of_int in E. vm_compute in Hn, E.
    injection E as <-. destruct Hn as [_ Hn]. by apply Hn.
Defined.

(** ** Listing after a create *)

Lemma list_items_in_range `{PyLib} (s : string) (n : Z) (st : Storage) :
  int_of_str s = Some n → 111111 ≤ n ≤ 999999 →
  _handle_list_items (Some s) st
  = (st, Ok (JsonResponse 200
               (items_body (sort_by createdAt
                              (filter (seller_matches n) (dict_values (items st))))))).
Proof.
  intros Hs Hn. unfold _handle_list_items. rewrite Hs.
  assert ((111111 <=? n) && (n <=? 999999) = true) as ->.
  { apply andb_true_iff. rewrite !Z.leb_le. lia. }
  unfold mbind, handler_bind, storage, _json_response, mret, handler_ret, items_body.
  cbn [negb]. rewrite sort_by_fmap. reflexivity.
Qed.

(** X10: in a store that the service has reached, a successful create for
    seller [n] adds the new item, and nothing else, to the listing of [n],
    and leaves the listing of every other seller exactly as it was. *)
Theorem create_then_list (lib : PyLib) (reqs : list Request) (raw : list Byte.byte)
    (now : string) (d : list (string * json)) (n : Z) (s : string) (m : Z) :
  let st := (serve reqs empty_Storage).1 in
  _read_json raw = Ok (JObj d) →
  ValidItemPayload d →
  dict_get "sellerId" d = Some (JInt n) →
  int_of_str s = Some m →
  111111 ≤ m ≤ 999999 →
  ∃ st' item before after,
    handle (POST "/api/1/item" raw now) st = (st', Ok (JsonResponse 201 (item_body item)))
    ∧ _handle_list_items (Some s) st = (st, Ok (JsonResponse 200 (items_body before)))
    ∧ _handle_list_items (Some s) st' = (st', Ok (JsonResponse 200 (items_body after)))
    ∧ (m = n → after ≡ₚ item :: before)
    ∧ (m ≠ n → after = before).
Proof.
  intros st Hraw Hd Hseller Hs Hm.
  destruct (serve_well_formed reqs empty_Storage empty_Storage_well_formed) as [Hwf _].
  fold st in Hwf.
  set (item := new_Item (Str.of_int (counter st + 1)) d now).
  destruct (store_Item_appends item st Hwf eq_refl) as [Happ _].
  exists (store_Item item st), item.
  exists (sort_by createdAt (filter (seller_matches m) (dict_values (items st)))),
         (sort_by createdAt (filter (seller_matches m) (dict_values (items (store_Item item st))))).
  split; [| split; [| split; [| split]]].
  - rewrite do_POST_item.
    apply (create_item_accepted raw now st d Hraw (valid_payload_no_errors d Hd)).
  - by apply list_items_in_range.
  - by apply list_items_in_range.
  - intros ->. rewrite Happ. unfold dict_values. rewrite map_app, filter_app.
    cbn [map snd]. rewrite filter_cons_True, filter_nil.
    + rewrite !sort_by_perm. symmetry. apply Permutation_cons_append.
    + unfold seller_matches, item. cbn [sellerId new_Item]. rewrite Hseller. cbn.
      apply Z.eqb_refl.
  - intros Hne. rewrite Happ. unfold dict_values. rewrite map_app, filter_app.
    cbn [map snd]. rewrite filter_cons_False, filter_nil, app_nil_r; [done |].
    unfold seller_matches, item. cbn [sellerId new_Item]. rewrite Hseller. cbn.
    intros E%Z.eqb_eq. congruence.
Qed.

Lemma create_then_list_witness :
  let lib := example_lib (JObj (sample_payload 200000)) in
  let reqs := [POST "/api/1/item" some_bytes "2024-01-01T00:00:00+00:00"] in
  ∃ st' item before after,
    handle (H := lib) (POST "/api/1/item" some_bytes "2024-01-01T00:00:01+00:00")
      (serve (H := lib) reqs empty_Storage).1
    = (st', Ok (JsonResponse 201 (item_body item)))
    ∧ _handle_list_items (H := lib) (Some "200000") (serve (H := lib) reqs empty_Storage).1
      = ((serve (H := lib) reqs empty_Storage).1, Ok (JsonResponse 200 (items_body before)))
    ∧ _handle_list_items (H := lib) (Some "200000") st'
      = (st', Ok (JsonResponse 200 (items_body after)))
    ∧ (200000 = 200000 → after ≡ₚ item :: before)
    ∧ (200000 ≠ 200000 → after = before).
Proof.
  intros lib reqs.
  apply (create_then_list lib reqs some_bytes "2024-01-01T00:00:01+00:00"
           (sample_payload 200000) 200000 "200000" 200000).
  - reflexivity.
  - apply sample_payload_valid. lia.
  - reflexivity.
  - reflexivity.
  - lia.
Defined.

(** ** The listing is in order *)

Lemma leb_not_ltb (s1 s2 : string) : String.leb s1 s2 = true → String.ltb s2 s1 = false.
Proof.
  unfold String.leb, String.ltb. rewrite (String.compare_antisym s1 s2).
  by destruct (String.compare s2 s1).
Qed.

Lemma sort_by_sorted_id {A : Type} (key : A → string) (l : list A) :
  StronglySorted (key_le key) l → sort_by key l = l.
Proof.
  induction 1 as [| x l Hs IH Hx]; cbn; [done |].
  rewrite IH. destruct l as [| y l]; cbn; [done |].
  apply Forall_cons in Hx as [Hxy _]. by rewrite (leb_not_ltb _ _ Hxy).
Qed.

(** X11: sorting the returned listing again by [createdAt], as the test of
    the listing does with [sorted], gives the listing itself. *)
Theorem listing_is_sorted (lib : PyLib) (st : Storage) (s : string) (n : Z) :
  int_of_str s = Some n →
  111111 ≤ n ≤ 999999 →
  ∃ listing : list json,
    _handle_list_items (Some s) st
    = (st, Ok (JsonResponse 200 (JObj [("items", JArr listing)])))
    ∧ sort_by createdAt_key listing = listing.
Proof.
  intros Hs Hn. eexists. split; [by apply list_items_in_range |].
  rewrite sort_by_fmap. f_equal.
  apply (sort_by_sorted_id (createdAt_key ∘ asdict_Item)), (sort_by_sorted createdAt).
Qed.

Lemma listing_is_sorted_witness :
  ∃ listing : list json,
    _handle_list_items (H := example_lib JNull) (Some "200000") example_store
    = (example_store, Ok (JsonResponse 200 (JObj [("items", JArr listing)])))
    ∧ sort_by createdAt_key listing = listing.
Proof.
  apply (listing_is_sorted (example_lib JNull) example_store "200000" 200000);
    [reflexivity | lia].
Defined.

Lemma StronglySorted_filter {A : Type} (R : relation A) (P : A → Prop)
    `{∀ x, Decision (P x)} (l : list A) :
  StronglySorted R l → StronglySorted R (filter P l).
Proof.
  induction 1 as [| x l Hs IH Hx]; [constructor |].
  rewrite filter_cons. destruct (decide (P x)); [| done].
  constructor; [done |].
  apply Forall_forall. intros y [_ Hy]%list_elem_of_filter.
  by eapply Forall_forall in Hx.
Qed.

(** X12: when the items of the store are in non-decreasing order of
    [createdAt], that is when the clock did not step back from one create to
    the next, the listing of a seller is the items of that seller in the
    order of the store, which is the order of creation. *)
Theorem listing_in_creation_order (lib : PyLib) (st : Storage) (s : string) (n : Z) :
  int_of_str s = Some n →
  111111 ≤ n ≤ 999999 →
  StronglySorted (key_le createdAt) (dict_values (items st)) →
  _handle_list_items (Some s) st
  = (st, Ok (JsonResponse 200
               (items_body (filter (seller_matches n) (dict_values (items st)))))).
Proof.
  intros Hs Hn Hsorted. rewrite (list_items_in_range s n st Hs Hn).
  by rewrite (sort_by_sorted_id createdAt _ (StronglySorted_filter _ _ _ Hsorted)).
Qed.

Lemma listing_in_creation_order_witness :
  let lib := example_lib (JObj (sample_payload 200000)) in
  let st := (serve (H := lib)
               [POST "/api/1/item" some_bytes "2024-01-01T00:00:00+00:00";
                POST "/api/1/item" some_bytes "2024-01-01T00:00:00+00:00";
                POST "/api/1/item" some_bytes "2024-01-01T00:00:01+00:00"]
               empty_Storage).1 in
  _handle_list_items (H := lib) (Some "200000") st
  = (st, Ok (JsonResponse 200
               (items_body
                  [new_Item "1" (sample_payload 200000) "2024-01-01T00:00:00+00:00";
                   new_Item "2" (sample_payload 200000) "2024-01-01T00:00:00+00:00";
                   new_Item "3" (sample_payload 200000) "2024-01-01T00:00:01+00:00"]))).
Proof.
  intros lib st.
  apply (listing_in_creation_order lib st "200000" 200000).
  - reflexivity.
  - lia.
  - vm_compute. repeat constructor.
Defined.

(** ** Bodies that cannot be decoded *)

(** X13: a create without a body, with a body that [json.loads] rejects
    with [JSONDecodeError], or with the body [null], is answered 400 with the
    single violation "body must be JSON", and the store is left as it is. *)
Theorem create_without_json (lib : PyLib) (raw : list Byte.byte) (now : string)
    (st : Storage) :
  raw = [] ∨ json_loads raw = Raise JSONDecodeError ∨ json_loads raw = Ok JNull →
  handle (POST "/api/1/item" raw now) st
  = (st, Ok (JsonResponse 400 (errors_body ["body must be JSON"]))).
Proof.
  exact (create_unparsable_body raw now st).
Qed.

Lemma create_without_json_witness :
  handle (H := example_lib JNull) (POST "/api/1/item" [] "2024-01-01T00:00:00+00:00")
    example_store
  = (example_store, Ok (JsonResponse 400 (errors_body ["body must be JSON"]))).
Proof.
  apply (create_without_json (example_lib JNull)). by left.
Defined.

(** X14: only [JSONDecodeError] is caught when the body is decoded: any
    other exception of [json.loads], such as [UnicodeDecodeError] for bytes
    that are not UTF-8, escapes the handler; no response is written and the
    store is left as it is. *)
Theorem create_decode_exception_escapes (lib : PyLib) (raw : list Byte.byte)
    (now : string) (st : Storage) (e : exn) :
  raw ≠ [] →
  json_loads raw = Raise e →
  e ≠ JSONDecodeError →
  handle (POST "/api/1/item" raw now) st = (st, Raise e).
Proof.
  intros Hraw E He. rewrite do_POST_item. apply create_item_raises_read.
  unfold _read_json. destruct raw; [done |]. rewrite E. by destruct e.
Qed.

Lemma create_decode_exception_escapes_witness :
  handle (H := {| json_loads := λ _, Raise UnicodeDecodeError;
                  urlparse := example_urlparse;
                  parse_qs := example_parse_qs;
                  int_of_str := Str.to_int |})
    (POST "/api/1/item" [Byte.xff] "2024-01-01T00:00:00+00:00") example_store
  = (example_store, Raise UnicodeDecodeError).
Proof. by apply create_decode_exception_escapes. Defined.

(** ** The rest of the GET routes *)

Section GetRoutes.
Context `{PyLib}.

Lemma statistics_prefix_not_item (p : string) :
  Str.startswith p "/api/1/statistics/" = true →
  Str.startswith p "/api/1/item/" = false ∧ Str.startswith p "/api/1/items" = false.
Proof.
  unfold Str.startswith. intros [r ->]%StrFacts.prefix_inv. by split.
Qed.

End GetRoutes.

(** X15: a GET whose path starts with [/api/1/statistics/] goes to the
    statistics of its last segment; a GET whose path starts with none of
    [/api/1/item/], [/api/1/items] and [/api/1/statistics/] is answered 404
    and the store is left as it is. *)
Theorem get_routes_rest (lib : PyLib) (self_path : string) :
  (Str.startswith (path (urlparse self_path)) "/api/1/statistics/" = true →
   handle (GET self_path)
   = _handle_stats (Str.last_segment (Str.split "/" (path (urlparse self_path)))))
  ∧ (Str.startswith (path (urlparse self_path)) "/api/1/item/" = false →
     Str.startswith (path (urlparse self_path)) "/api/1/items" = false →
     Str.startswith (path (urlparse self_path)) "/api/1/statistics/" = false →
     ∀ st, handle (GET self_path) st = (st, Ok (ErrorResponse 404 "Not Found"))).
Proof.
  cbn [handle]. unfold do_GET. split.
  - intros Hp. destruct (statistics_prefix_not_item _ Hp) as [-> ->]. by rewrite Hp.
  - by intros -> -> ->.
Qed.

Lemma get_routes_rest_witness :
  handle (H := example_lib JNull) (GET "/api/1/statistics/x/3") example_store
  = (example_store, Ok (JsonResponse 200 (statistics_body (new_Stats "3"))))
  ∧ handle (H := example_lib JNull) (GET "/api/1/item") example_store
    = (example_store, Ok (ErrorResponse 404 "Not Found")).
Proof.
  split.
  - rewrite (proj1 (get_routes_rest (example_lib JNull) "/api/1/statistics/x/3") eq_refl).
    reflexivity.
  - by apply (proj2 (get_routes_rest (example_lib JNull) "/api/1/item")).
Defined.

(** ** Fields that the service does not know *)

Lemma object_errors_set_other (k : string) (v : json) (d : list (string * json)) :
  k ∉ required_fields → object_errors (dict_set k v d) = object_errors d.
Proof.
  unfold required_fields. rewrite !not_elem_of_cons. intros (H1 & H2 & H3 & H4 & _).
  unfold object_errors, dict_mem; cbv zeta.
  by rewrite !(dict_get_set_ne k) by done.
Qed.

Lemma new_Item_set_other (k : string) (v : json) (d : list (string * json))
    (item_id now : string) :
  k ∉ required_fields → new_Item item_id (dict_set k v d) now = new_Item item_id d now.
Proof.
  unfold required_fields. rewrite !not_elem_of_cons. intros (H1 & H2 & H3 & H4 & _).
  unfold new_Item. by rewrite !(dict_get_set_ne k) by done.
Qed.

Lemma create_item_by_payload `{PyLib} (raw : list Byte.byte) (now : string) (st : Storage)
    (d : list (string * json)) :
  _read_json raw = Ok (JObj d) →
  _handle_create_item raw now st
  = match object_errors d with
    | [] =>
        (store_Item (new_Item (Str.of_int (counter st + 1)) d now) st,
         Ok (JsonResponse 201 (item_body (new_Item (Str.of_int (counter st + 1)) d now))))
    | errors => (st, Ok (JsonResponse 400 (errors_body errors)))
    end.
Proof.
  intros E. destruct (object_errors d) as [| msg errors] eqn:Ed.
  - by apply create_item_accepted.
  - apply (create_item_rejected raw now st (JObj d)); [done | | done].
    by rewrite validate_item_object, Ed.
Qed.

(** X16: a field of the payload other than title, description, price and
    sellerId is ignored: with or without it, the create gets the same
    response and leaves the same store, and the field is not stored. *)
Theorem unknown_fields_ignored (lib : PyLib) (raw raw' : list Byte.byte) (now : string)
    (st : Storage) (d : list (string * json)) (k : string) (v : json) :
  k ∉ required_fields →
  _read_json raw = Ok (JObj d) →
  _read_json raw' = Ok (JObj (dict_set k v d)) →
  handle (POST "/api/1/item" raw' now) st = handle (POST "/api/1/item" raw now) st.
Proof.
  intros Hk E E'. rewrite !do_POST_item.
  rewrite (create_item_by_payload raw now st d E),
    (create_item_by_payload raw' now st _ E').
  by rewrite object_errors_set_other, new_Item_set_other.
Qed.

Lemma unknown_fields_ignored_witness :
  let lib := {| json_loads := λ raw,
                  match raw with
                  | [_] => Ok (JObj (sample_payload 200000))
                  | _ => Ok (JObj (dict_set "color" (JStr "red") (sample_payload 200000)))
                  end;
                urlparse := example_urlparse;
                parse_qs := example_parse_qs;
                int_of_str := Str.to_int |} in
  handle (H := lib) (POST "/api/1/item" some_bytes "2024-01-01T00:00:00+00:00") empty_Storage
  = handle (H := lib) (POST "/api/1/item" [Byte.x20] "2024-01-01T00:00:00+00:00")
      empty_Storage.
Proof.
  intros lib.
  apply (unknown_fields_ignored lib [Byte.x20] some_bytes "2024-01-01T00:00:00+00:00"
           empty_Storage (sample_payload 200000) "color" (JStr "red")).
  - unfold required_fields. rewrite !not_elem_of_cons. repeat split; try discriminate.
    apply not_elem_of_nil.
  - reflexivity.
  - reflexivity.
Defined.

(** ** Bounds of the description, the price and the types *)

Lemma description_empty_violation (d : list (string * json)) :
  negb (isinstance_str (default (JStr "") (dict_get "description" d)))
  || str_is_empty (default (JStr "") (dict_get "description" d)) = true →
  "description must be non-empty string" ∈ object_errors d.
Proof. violation_condition_goal. unfold default. tauto. Qed.

Lemma description_long_violation (d : list (string * json)) :
  isinstance_str (default (JStr "") (dict_get "description" d))
  && (2000 <? str_len (default (JStr "") (dict_get "description" d))) = true →
  "description too long" ∈ object_errors d.
Proof. violation_condition_goal. unfold default. tauto. Qed.

Lemma price_violation (d : list (string * json)) :
  negb (isinstance_int (default JNull (dict_get "price" d)))
  || (int_value (default JNull (dict_get "price" d)) <=? 0) = true →
  "price must be positive integer" ∈ object_errors d.
Proof. violation_condition_goal. unfold default. tauto. Qed.

Lemma valid_payload_set_description (d : list (string * json)) (t : string) :
  ValidItemPayload d → (0 < String.length t ≤ 2000)%nat →
  ValidItemPayload (dict_set "description" (JStr t) d).
Proof.
  intros [Ht Hde Hp Hs] Hn.
  split; rewrite ?dict_get_set_eq, ?dict_get_set_ne by discriminate; eauto.
Qed.

Lemma valid_payload_set_price (d : list (string * json)) (n : Z) :
  ValidItemPayload d → 0 < n → ValidItemPayload (dict_set "price" (JInt n) d).
Proof.
  intros [Ht Hde Hp Hs] Hn.
  split; rewrite ?dict_get_set_eq, ?dict_get_set_ne by discriminate; eauto.
Qed.

(** X17: with the other fields valid, a description of 2000 characters is
    accepted, one of 2001 characters and the empty one are rejected; the
    price 1 is accepted, 0 and negative prices are rejected; a price or a
    sellerId that is a JSON float or a JSON string is rejected whatever its
    value, and so is a title that is not a string. *)
Theorem other_boundaries (lib : PyLib) (d : list (string * json)) :
  ValidItemPayload d →
  (∀ t, String.length t = 2000%nat → accepts (JObj (dict_set "description" (JStr t) d)))
  ∧ (∀ t, String.length t = 2001%nat → rejects (JObj (dict_set "description" (JStr t) d)))
  ∧ rejects (JObj (dict_set "description" (JStr "") d))
  ∧ accepts (JObj (dict_set "price" (JInt 1) d))
  ∧ (∀ n, n ≤ 0 → rejects (JObj (dict_set "price" (JInt n) d)))
  ∧ (∀ f, rejects (JObj (dict_set "price" (JFloat f) d)))
  ∧ (∀ s, rejects (JObj (dict_set "price" (JStr s) d)))
  ∧ (∀ f, rejects (JObj (dict_set "sellerId" (JFloat f) d)))
  ∧ (∀ s, rejects (JObj (dict_set "sellerId" (JStr s) d)))
  ∧ (∀ n, rejects (JObj (dict_set "title" (JInt n) d))).
Proof.
  intros Hd. repeat split.
  - intros t Ht. apply valid_payload_accepted, valid_payload_set_description; [done | lia].
  - intros t Ht. eapply violation_rejected, description_long_violation.
    rewrite dict_get_set_eq. cbn. rewrite Ht. reflexivity.
  - eapply violation_rejected, description_empty_violation. by rewrite dict_get_set_eq.
  - apply valid_payload_accepted, valid_payload_set_price; [done | lia].
  - intros n Hn. eapply violation_rejected, price_violation.
    rewrite dict_get_set_eq. cbn. apply Z.leb_le. lia.
  - intros f. eapply violation_rejected, price_violation. by rewrite dict_get_set_eq.
  - intros s. eapply violation_rejected, price_violation. by rewrite dict_get_set_eq.
  - intros f. eapply violation_rejected, sellerId_violation. by rewrite dict_get_set_eq.
  - intros s. eapply violation_rejected, sellerId_violation. by rewrite dict_get_set_eq.
  - intros n. eapply violation_rejected, title_empty_violation. by rewrite dict_get_set_eq.
Qed.

Lemma other_boundaries_witness :
  ValidItemPayload (sample_payload 200000)
  ∧ ∃ errors,
      errors ≠ []
      ∧ handle (H := example_lib (JObj (dict_set "price" (JInt 0) (sample_payload 200000))))
          (POST "/api/1/item" some_bytes "2024-01-01T00:00:00+00:00") empty_Storage
        = (empty_Storage, Ok (JsonResponse 400 (errors_body errors))).
Proof.
  pose proof (sample_payload_valid 200000 ltac:(lia)) as Hv.
  split; [exact Hv |].
  destruct (other_boundaries
              (example_lib (JObj (dict_set "price" (JInt 0) (sample_payload 200000))))
              (sample_payload 200000) Hv) as (_ & _ & _ & _ & Hr & _).
  apply (Hr 0); [lia | reflexivity].
Defined.
